(** * PriceWise (M5): the price-decision engine of [app.py]

    A shallow embedding of [expected_qty], [expected_revenue] and
    [choose_price], and the properties of the decision procedure.

    Numbers.  Python floats are read as real numbers (exact arithmetic):
    rounding, infinities and NaN of IEEE doubles are outside this model,
    except for the guardrail typed by the user, where the text [inf] or
    [nan] is accepted by Python's [float] and is kept as such
    ([pyfloat]).  The engine reads [math.exp] as the real exponential;
    [expected_qty_ranged] and [expected_revenue_ranged] are the two
    wrappers with the range of [math.exp] kept (OverflowError beyond the
    largest double), and agree with the plain ones inside that range.

    Effects.  The demand model is called through [model_pipe.predict];
    every call is recorded in a trace, and Python exceptions are results
    ([Raises]).  The encoder and the model are the loaded artifact: they
    are parameters, taken as total functions.

    Outputs.  [choose_price] returns four values for the four widgets.
    The JSON text and the markdown summary are kept as the records they
    are printed from, so that no number formatting is involved. *)

From Stdlib Require Import Reals Lra Lia ZArith Ascii String.
From stdpp Require Import base option list sorting gmap strings.

Local Open Scope R_scope.

(** * Part I: the program *)

(** ** Exceptions and the call trace *)

Inductive exn : Type :=
| ValueError (what : string)
| IndexError (what : string)
| OverflowError (what : string).

Inductive outcome (A : Type) : Type :=
| Returns (a : A)
| Raises (e : exn).
Arguments Returns {A} a.
Arguments Raises {A} e.

(** The feature row handed to the model (one-row data frame). *)
Record Row : Type := mkRow {
  log_price : R;
  row_weekday : string;
  row_month : Z;
  row_is_event : Z;
  row_item_id : string
}.

(** A computation: its outcome and the rows it passed to
    [model_pipe.predict], oldest first. *)
Definition Eff (A : Type) : Type := (outcome A * list Row)%type.

#[global] Instance Eff_ret : MRet Eff := fun A a => (Returns a, []).
#[global] Instance Eff_bind : MBind Eff := fun A B f m =>
  match m with
  | (Returns a, t) => let '(r, t') := f a in (r, t ++ t')
  | (Raises e, t) => (Raises e, t)
  end.

Definition raise {A : Type} (e : exn) : Eff A := (Raises e, []).

Definition result {A : Type} (m : Eff A) : outcome A := fst m.
Definition calls {A : Type} (m : Eff A) : list Row := snd m.

(** ** Comparisons on reals as booleans *)

Definition Rltb (x y : R) : bool := if Rlt_dec x y then true else false.
Definition Rleb (x y : R) : bool := if Rle_dec x y then true else false.

#[global] Instance R_eq_dec : EqDecision R := Req_dec_T.

(** Python's [max(a, b)]: [b] replaces [a] only when [b > a]. *)
Definition py_max (a b : R) : R := if Rltb a b then b else a.

(** [math.log]: a ValueError outside the positive reals. *)
Definition math_log (x : R) : Eff R :=
  if Rltb 0 x then mret (ln x) else raise (ValueError "math domain error").

(** The largest double, [(2 - 2^-52) * 2^1023]. *)
Definition DBL_MAX : R := (2 - / 2 ^ 52) * 2 ^ 1023.

(** [math.exp] with its range: an OverflowError when the result is
    beyond the doubles (an argument above about 709.78). *)
Definition math_exp (x : R) : Eff R :=
  if Rltb DBL_MAX (exp x) then raise (OverflowError "math range error")
  else mret (exp x).

(** Settles the comparisons of a goal that linear arithmetic decides. *)
Ltac decide_Rltb :=
  unfold Rltb;
  repeat match goal with
  | |- context [Rlt_dec ?x ?y] => destruct (Rlt_dec x y); try lra
  end.

(** ** Text: [str.strip] and the builtin [float]

    Strings are ASCII text.  [float] follows the grammar of the Python
    reference: an optional sign, then [inf], [infinity] or [nan] in any
    case, or a decimal number with optional fraction and exponent, where
    one underscore may stand between two digits. *)

Definition is_space (c : ascii) : bool :=
  let n := nat_of_ascii c in
  ((9 <=? n)%nat && (n <=? 13)%nat) || ((28 <=? n)%nat && (n <=? 32)%nat).

Fixpoint lstrip (s : string) : string :=
  match s with
  | String c s' => if is_space c then lstrip s' else s
  | EmptyString => EmptyString
  end.

Fixpoint rstrip (s : string) : string :=
  match s with
  | String c s' =>
      match rstrip s' with
      | EmptyString => if is_space c then EmptyString else String c EmptyString
      | r => String c r
      end
  | EmptyString => EmptyString
  end.

Definition strip (s : string) : string := rstrip (lstrip s).

Inductive pyfloat : Type :=
| Finite (r : R)
| PosInf
| NegInf
| NaN.

Definition digit_val (c : ascii) : option Z :=
  let n := nat_of_ascii c in
  if ((48 <=? n)%nat && (n <=? 57)%nat) then Some (Z.of_nat (n - 48)) else None.

Definition is_underscore (c : ascii) : bool := (nat_of_ascii c =? 95)%nat.

(** The rest of a [digitpart], after a first digit: the digits read so
    far as a number, how many were read, and the text left. *)
Fixpoint digits_more (s : string) (acc : Z) (n : nat) : Z * nat * string :=
  match s with
  | String c s' =>
      match digit_val c with
      | Some d => digits_more s' (10 * acc + d)%Z (S n)
      | None =>
          if is_underscore c then
            match s' with
            | String c2 s'' =>
                match digit_val c2 with
                | Some d => digits_more s'' (10 * acc + d)%Z (S n)
                | None => (acc, n, s)
                end
            | EmptyString => (acc, n, s)
            end
          else (acc, n, s)
      end
  | EmptyString => (acc, n, s)
  end.

Definition digitpart (s : string) (acc : Z) (n : nat) : option (Z * nat * string) :=
  match s with
  | String c s' =>
      match digit_val c with
      | Some d => Some (digits_more s' (10 * acc + d)%Z (S n))
      | None => None
      end
  | EmptyString => None
  end.

Definition is_char (k : nat) (c : ascii) : bool := (nat_of_ascii c =? k)%nat.

(** [sign]: whether a minus was read, and the text left. *)
Definition read_sign (s : string) : bool * string :=
  match s with
  | String c s' =>
      if is_char 45 c then (true, s')
      else if is_char 43 c then (false, s')
      else (false, s)
  | EmptyString => (false, s)
  end.

(** [number]: the digits as an integer, the number of digits after the
    point, and the text left. *)
Definition read_number (s : string) : option (Z * nat * string) :=
  match digitpart s 0 0 with
  | Some (m, _, rest) =>
      match rest with
      | String c rest' =>
          if is_char 46 c then
            match digitpart rest' m 0 with
            | Some r => Some r
            | None => Some (m, 0%nat, rest')
            end
          else Some (m, 0%nat, rest)
      | EmptyString => Some (m, 0%nat, rest)
      end
  | None =>
      match s with
      | String c rest' => if is_char 46 c then digitpart rest' 0 0 else None
      | EmptyString => None
      end
  end.

(** [exponent], or nothing at the end of the text. *)
Definition read_exponent (s : string) : option Z :=
  match s with
  | EmptyString => Some 0%Z
  | String c s' =>
      if is_char 101 c || is_char 69 c then
        let '(neg, s'') := read_sign s' in
        match digitpart s'' 0 0 with
        | Some (e, _, EmptyString) => Some (if neg then (- e)%Z else e)
        | _ => None
        end
      else None
  end.

Definition lower (c : ascii) : ascii :=
  let n := nat_of_ascii c in
  if ((65 <=? n)%nat && (n <=? 90)%nat) then ascii_of_nat (n + 32) else c.

Fixpoint lowercase (s : string) : string :=
  match s with
  | String c s' => String (lower c) (lowercase s')
  | EmptyString => EmptyString
  end.

(** What a float literal denotes: the sign, the digits as an integer and
    the power of ten they are scaled by. *)
Inductive literal : Type :=
| LitInf (neg : bool)
| LitNan
| LitNum (neg : bool) (m : Z) (e : Z).

Definition read_float (s : string) : option literal :=
  let '(neg, body) := read_sign (strip s) in
  let word := lowercase body in
  if String.eqb word "inf" || String.eqb word "infinity" then Some (LitInf neg)
  else if String.eqb word "nan" then Some LitNan
  else
    match read_number body with
    | Some (m, k, rest) =>
        match read_exponent rest with
        | Some e => Some (LitNum neg m (e - Z.of_nat k))
        | None => None
        end
    | None => None
    end.

Definition literal_value (l : literal) : pyfloat :=
  match l with
  | LitInf neg => if neg then NegInf else PosInf
  | LitNan => NaN
  | LitNum neg m e =>
      let v := IZR m * powerRZ 10 e in
      Finite (if neg then - v else v)
  end.

(** [float(s)] for a string: [None] stands for the ValueError. *)
Definition py_float (s : string) : option pyfloat :=
  literal_value <$> read_float s.

(** Evaluates [float] on a literal text. *)
Ltac float_literal :=
  unfold py_float;
  match goal with
  | |- context [read_float ?s] =>
      let l := eval vm_compute in (read_float s) in
      change (read_float s) with l
  end;
  simpl; first [ reflexivity | do 2 f_equal; lra ].

(** ** Results of [choose_price] *)

(** One entry of [rows]: the dict with keys price, exp_qty, exp_rev, ucb. *)
Record CandRow : Type := mkCand {
  price : R;
  exp_qty : R;
  exp_rev : R;
  ucb : R
}.

Record Context : Type := mkContext {
  weekday : string;
  month : Z;
  is_event : Z
}.

(** The dict [pretty], before [json.dumps]. *)
Record Pretty : Type := mkPretty {
  artifact_path : string;
  item_id : string;
  context : Context;
  grid : list R;
  chosen_price : R;
  arm_index : nat;
  scores_ucb : list R
}.

(** The first output: [gr.update(value="")] or the JSON text of [pretty]. *)
Inductive CodeOut : Type :=
| Cleared
| Json (pretty : Pretty).

(** The third output: a fixed message, or the recommended-price line. *)
Inductive Note : Type :=
| Message (text : string)
| Recommended (best_price : R).

(** The sentences of [summary_md], with the numbers they print. *)
Record Summary : Type := mkSummary {
  sum_price : R;
  sum_item : string;
  sum_weekday : string;
  sum_month : Z;
  sum_event : bool;
  sum_units : R;
  sum_revenue : R;
  guardrail_applied : option pyfloat;
  exploration_enabled : bool
}.

Record Outputs : Type := mkOutputs {
  out_json : CodeOut;
  out_tbl : list CandRow;
  note : Note;
  human : option Summary
}.

(** The early exits: [gr.update(value=""), pd.DataFrame(), msg, ""]. *)
Definition rejected (msg : string) : Outputs :=
  {| out_json := Cleared; out_tbl := []; note := Message msg; human := None |}.

(** [-1e9], the score of a blocked candidate. *)
Definition sentinel : R := -1e9.

Definition blocked_row (p : R) : CandRow :=
  {| price := p; exp_qty := 0.0; exp_rev := sentinel; ucb := sentinel |}.

(** [mm is not None and p < mm]. *)
Definition below (mm : option pyfloat) (p : R) : bool :=
  match mm with
  | None => false
  | Some (Finite m) => Rltb p m
  | Some PosInf => true
  | Some NegInf => false
  | Some NaN => false
  end.

(** [np.argmax]: the scan keeps the first maximum. *)
Fixpoint argmax_from (best_i : nat) (best : R) (i : nat) (l : list R) : nat :=
  match l with
  | [] => best_i
  | x :: l' =>
      if Rltb best x then argmax_from i x (S i) l'
      else argmax_from best_i best (S i) l'
  end.

Definition np_argmax (l : list R) : Eff nat :=
  match l with
  | [] => raise (ValueError "attempt to get argmax of an empty sequence")
  | x :: l' => mret (argmax_from 0 x 1 l')
  end.

(** [xs[i]] on a list. *)
Definition index {A : Type} (xs : list A) (i : nat) : Eff A :=
  match xs !! i with
  | Some x => mret x
  | None => raise (IndexError "list index out of range")
  end.

(** [sort_values("price")]: ascending by price.  The order pandas
    gives to rows of equal price is not fixed; this sort keeps theirs. *)
Definition price_le (a b : CandRow) : Prop := price a <= price b.

#[global] Instance price_le_dec a b : Decision (price_le a b) := Rle_dec (price a) (price b).

Definition sort_values (rows : list CandRow) : list CandRow := merge_sort price_le rows.

(** ** The engine *)

Section Engine.

(** The loaded artifact: its path, the context encoder (the encoded row
    of one context), the price grids and the demand model (its
    prediction on one feature row). *)
Variable ARTIFACT : string.
Variable enc : string -> Z -> Z -> list R.
Variable price_grid : gmap string (list R).
Variable model_pipe : Row -> R.

Definition predict (row : Row) : Eff R := (Returns (model_pipe row), [row]).

(** [math.exp(mu)] is read as the real exponential, like the rest of the
    float arithmetic of the engine; [expected_qty_ranged] below keeps
    its range. *)
Definition expected_qty (item_id weekday : string) (month is_event : Z)
    (trial_price : R) : Eff R :=
  lp ← math_log trial_price;
  let row := {| log_price := lp; row_weekday := weekday; row_month := month;
                row_is_event := is_event; row_item_id := item_id |} in
  mu ← predict row;
  mret (py_max 0.0 (exp mu - 1.0)).

Definition expected_revenue (item_id weekday : string) (month is_event : Z)
    (trial_price : R) : Eff R :=
  q ← expected_qty item_id weekday month is_event trial_price;
  mret (trial_price * q).

(** [sigma]: the dispersion of the encoded context.  The square root
    is the one of the reals, 0 where NumPy gives NaN (a negative sum);
    on a one-hot row every term [x * (1 - x)] is 0. *)
Definition dispersion (weekday : string) (month is_event : Z) : R :=
  let X := enc weekday month is_event in
  sqrt (foldr Rplus 0 ((fun x => x * (1 - x)) <$> X)).

(** The loop over the grid, with [rows], [scores] and [penalized] as it
    leaves them. *)
Fixpoint score_grid (item_id weekday : string) (month is_event : Z)
    (mm : option pyfloat) (alpha sigma : R) (ps : list R)
    (rows : list CandRow) (scores : list R) (penalized : bool)
    : Eff (list CandRow * list R * bool) :=
  match ps with
  | [] => mret (rows, scores, penalized)
  | p :: ps' =>
      if below mm p then
        score_grid item_id weekday month is_event mm alpha sigma ps'
          (rows ++ [blocked_row p]) (scores ++ [sentinel]) true
      else
        er ← expected_revenue item_id weekday month is_event p;
        qty ← expected_qty item_id weekday month is_event p;
        let ucb := er + alpha * sigma in
        score_grid item_id weekday month is_event mm alpha sigma ps'
          (rows ++ [{| price := p; exp_qty := qty; exp_rev := er; ucb := ucb |}])
          (scores ++ [ucb]) penalized
  end.

(** The optional guardrail: [None] when the text is not numeric,
    [Some None] when no guardrail is set. *)
Definition parse_min_margin (min_margin : option string) : option (option pyfloat) :=
  let min_margin := strip <$> min_margin in
  match min_margin with
  | None => Some None
  | Some s =>
      if String.eqb s "" || String.eqb s " " then Some None
      else Some <$> py_float s
  end.

Definition choose_price (item_id : option string) (weekday : string) (month : Z)
    (is_event : bool) (min_margin : option string) (explore : bool) : Eff Outputs :=
  match item_id with
  | None | Some EmptyString => mret (rejected "Pick an item_id.")
  | Some item_id =>
      let grid := default [] (price_grid !! item_id) in
      if bool_decide (grid = []) || (length grid <? 2)%nat then
        mret (rejected ("No usable price grid for " +:+ item_id +:+ "."))
      else
        match parse_min_margin min_margin with
        | None => mret (rejected "min_margin must be numeric.")
        | Some mm =>
            let sigma := dispersion weekday month (Z.b2z is_event) in
            let alpha := if explore then 0.8 else 0.0 in
            '(rows, scores, penalized) ←
              score_grid item_id weekday month (Z.b2z is_event) mm alpha sigma
                grid [] [] false;
            best_idx ← np_argmax scores;
            best_price ← index grid best_idx;
            best_row ← index (filter (fun r => price r = best_price) rows) 0;
            let table := sort_values rows in
            let pretty :=
              {| artifact_path := ARTIFACT;
                 item_id := item_id;
                 context := {| weekday := weekday; month := month;
                               is_event := Z.b2z is_event |};
                 grid := grid;
                 chosen_price := best_price;
                 arm_index := best_idx;
                 scores_ucb := scores |} in
            let summary :=
              {| sum_price := best_price;
                 sum_item := item_id;
                 sum_weekday := weekday;
                 sum_month := month;
                 sum_event := (Z.b2z is_event =? 1)%Z;
                 sum_units := exp_qty best_row;
                 sum_revenue := exp_rev best_row;
                 guardrail_applied := if (penalized : bool) then mm else None;
                 exploration_enabled := Rltb 0 alpha |} in
            mret {| out_json := Json pretty; out_tbl := table;
                    note := Recommended best_price; human := Some summary |}
        end
  end.

(** [expected_qty] and [expected_revenue] with the range of [math.exp]
    kept: they raise where Python's [math.exp(mu)] overflows. *)
Definition expected_qty_ranged (item_id weekday : string) (month is_event : Z)
    (trial_price : R) : Eff R :=
  lp ← math_log trial_price;
  let row := {| log_price := lp; row_weekday := weekday; row_month := month;
                row_is_event := is_event; row_item_id := item_id |} in
  mu ← predict row;
  e ← math_exp mu;
  mret (py_max 0.0 (e - 1.0)).

Definition expected_revenue_ranged (item_id weekday : string) (month is_event : Z)
    (trial_price : R) : Eff R :=
  q ← expected_qty_ranged item_id weekday month is_event trial_price;
  mret (trial_price * q).

(** The loop and the request handler over the ranged wrappers: the
    code of [score_grid] and [choose_price], with the OverflowError of
    [math.exp] able to leave them. *)
Fixpoint score_grid_ranged (item_id weekday : string) (month is_event : Z)
    (mm : option pyfloat) (alpha sigma : R) (ps : list R)
    (rows : list CandRow) (scores : list R) (penalized : bool)
    : Eff (list CandRow * list R * bool) :=
  match ps with
  | [] => mret (rows, scores, penalized)
  | p :: ps' =>
      if below mm p then
        score_grid_ranged item_id weekday month is_event mm alpha sigma ps'
          (rows ++ [blocked_row p]) (scores ++ [sentinel]) true
      else
        er ← expected_revenue_ranged item_id weekday month is_event p;
        qty ← expected_qty_ranged item_id weekday month is_event p;
        let ucb := er + alpha * sigma in
        score_grid_ranged item_id weekday month is_event mm alpha sigma ps'
          (rows ++ [{| price := p; exp_qty := qty; exp_rev := er; ucb := ucb |}])
          (scores ++ [ucb]) penalized
  end.

Definition choose_price_ranged (item_id : option string) (weekday : string) (month : Z)
    (is_event : bool) (min_margin : option string) (explore : bool) : Eff Outputs :=
  match item_id with
  | None | Some EmptyString => mret (rejected "Pick an item_id.")
  | Some item_id =>
      let grid := default [] (price_grid !! item_id) in
      if bool_decide (grid = []) || (length grid <? 2)%nat then
        mret (rejected ("No usable price grid for " +:+ item_id +:+ "."))
      else
        match parse_min_margin min_margin with
        | None => mret (rejected "min_margin must be numeric.")
        | Some mm =>
            let sigma := dispersion weekday month (Z.b2z is_event) in
            let alpha := if explore then 0.8 else 0.0 in
            '(rows, scores, penalized) ←
              score_grid_ranged item_id weekday month (Z.b2z is_event) mm alpha sigma
                grid [] [] false;
            best_idx ← np_argmax scores;
            best_price ← index grid best_idx;
            best_row ← index (filter (fun r => price r = best_price) rows) 0;
            let table := sort_values rows in
            let pretty :=
              {| artifact_path := ARTIFACT;
                 item_id := item_id;
                 context := {| weekday := weekday; month := month;
                               is_event := Z.b2z is_event |};
                 grid := grid;
                 chosen_price := best_price;
                 arm_index := best_idx;
                 scores_ucb := scores |} in
            let summary :=
              {| sum_price := best_price;
                 sum_item := item_id;
                 sum_weekday := weekday;
                 sum_month := month;
                 sum_event := (Z.b2z is_event =? 1)%Z;
                 sum_units := exp_qty best_row;
                 sum_revenue := exp_rev best_row;
                 guardrail_applied := if (penalized : bool) then mm else None;
                 exploration_enabled := Rltb 0 alpha |} in
            mret {| out_json := Json pretty; out_tbl := table;
                    note := Recommended best_price; human := Some summary |}
        end
  end.

End Engine.

(** ** A mock artifact

    Three grids (the second with one price twice, the third too short),
    a one-hot context row, and a model whose quantities at the prices
    2.00, 2.50 and 3.00 are 10, 8 and 5. *)

Definition mock_artifact : string := "m5_price_artifacts.pkl".

Definition mock_enc (weekday : string) (month is_event : Z) : list R := [1; 0; 0; 1].

Definition mock_grid : gmap string (list R) :=
  <["FOODS_1_001"%string := [2.00; 2.50; 3.00]]>
    (<["FOODS_1_002"%string := [2.00; 2.00]]>
       (<["FOODS_1_003"%string := [4.00]]> ∅)).

Definition mock_qty (p : R) : R :=
  if Rleb p 2.00 then 10 else if Rleb p 2.50 then 8 else 5.

Definition mock_model (row : Row) : R := ln (1 + mock_qty (exp (log_price row))).

(** ** Start-up: the artifact path and the dropdown items *)

(** The two places searched when [M5_ARTIFACT] gives no path. *)
Definition known_places : list string :=
  ["artifacts_m5/m5_price_artifacts.pkl"%string; "m5_price_artifacts.pkl"%string].

(** Python's truth value of [os.getenv(...)]: [None] and the empty
    string are false. *)
Definition truthy (s : option string) : bool :=
  match s with
  | None | Some EmptyString => false
  | Some _ => true
  end.

(** How the start of the module ends: the artifact is loaded from a
    path, or [_fatal_ui] runs and FileNotFoundError is raised. *)
Inductive startup : Type :=
| Loads (path : string)
| FileNotFound.

(** The path the module settles on: the environment's if it is set,
    else the first known place that exists; then the path must exist.
    [path_exists] is [os.path.exists]. *)
Definition locate_artifact (getenv : option string) (path_exists : string -> bool)
    : startup :=
  let ARTIFACT :=
    if truthy getenv then getenv
    else
      match List.find path_exists known_places with
      | Some cand => Some cand
      | None => getenv
      end in
  match ARTIFACT with
  | Some path =>
      if negb (truthy ARTIFACT) || negb (path_exists path) then FileNotFound
      else Loads path
  | None => FileNotFound
  end.

(** The order of [sorted] on strings. *)
Definition string_le (a b : string) : Prop := String.leb a b = true.

#[global] Instance string_le_dec a b : Decision (string_le a b) :=
  bool_eq_dec (String.leb a b) true.

(** [ITEMS]: the keys whose grid has two entries or more, sorted, at
    most 1500 of them. *)
Definition ITEMS (price_grid : gmap string (list R)) : list string :=
  take 1500
    (merge_sort string_le
       (filter (fun kv => (2 <= length kv.2)%nat) (map_to_list price_grid)).*1).

(** A model whose answer is beyond the range of [math.exp]. *)
Definition mock_model_huge (row : Row) : R := 1024.


(** * Part II: the decision read as a function, and its properties *)

(** ** The decision, computed without effects *)

(** The index [np.argmax] returns on a non-empty list. *)
Definition argmax (l : list R) : nat :=
  match l with
  | [] => 0%nat
  | x :: l' => argmax_from 0 x 1 l'
  end.

(** What a result says about the choice: the chosen index and price. *)
Definition chosen (out : Outputs) : option (nat * R) :=
  match out_json out with
  | Json pretty => Some (arm_index pretty, chosen_price pretty)
  | Cleared => None
  end.

Definition outcome_map {A B : Type} (f : A -> B) (o : outcome A) : outcome B :=
  match o with
  | Returns a => Returns (f a)
  | Raises e => Raises e
  end.

(** A candidate is marked blocked. *)
Definition marked_blocked (r : CandRow) : Prop :=
  exp_qty r = 0 /\ exp_rev r = sentinel /\ ucb r = sentinel.

Definition alpha_of (explore : bool) : R := if explore then 0.8 else 0.0.

(** The feature row of one trial price. *)
Definition feature_row (item wd : string) (m ev : Z) (p : R) : Row :=
  {| log_price := ln p; row_weekday := wd; row_month := m;
     row_is_event := ev; row_item_id := item |}.

Definition candidate_calls (item wd : string) (m ev : Z) (mm : option pyfloat)
    (p : R) : list Row :=
  if below mm p then [] else [feature_row item wd m ev p; feature_row item wd m ev p].

Section Properties.

Variable ARTIFACT : string.
Variable enc : string -> Z -> Z -> list R.
Variable price_grid : gmap string (list R).
Variable model_pipe : Row -> R.

(** The quantity and the candidate entry the engine derives from the
    model's answer on the feature row of a price. *)

Definition quantity (item wd : string) (m ev : Z) (p : R) : R :=
  py_max 0.0 (exp (model_pipe (feature_row item wd m ev p)) - 1.0).

Definition candidate (item wd : string) (m ev : Z) (mm : option pyfloat)
    (alpha sigma : R) (p : R) : CandRow :=
  if below mm p then blocked_row p
  else
    let q := quantity item wd m ev p in
    {| price := p; exp_qty := q; exp_rev := p * q; ucb := p * q + alpha * sigma |}.

(** The three early-exit checks pass: the item is named, its grid [g]
    has two entries or more, and the guardrail text gives [mm]. *)
Definition preconditions (item : string) (min_margin : option string)
    (g : list R) (mm : option pyfloat) : Prop :=
  item <> EmptyString
  /\ price_grid !! item = Some g
  /\ (2 <= length g)%nat
  /\ parse_min_margin min_margin = Some mm.

(** The values of [rows], [scores], [best_idx], [best_price] and
    [best_row] of a request that passes the three checks. *)
Definition rows_of (item wd : string) (m : Z) (ev : bool) (mm : option pyfloat)
    (explore : bool) (g : list R) : list CandRow :=
  candidate item wd m (Z.b2z ev) mm (alpha_of explore)
    (dispersion enc wd m (Z.b2z ev)) <$> g.

Definition scores_of (item wd : string) (m : Z) (ev : bool) (mm : option pyfloat)
    (explore : bool) (g : list R) : list R :=
  ucb <$> rows_of item wd m ev mm explore g.

Definition best_idx_of (item wd : string) (m : Z) (ev : bool) (mm : option pyfloat)
    (explore : bool) (g : list R) : nat :=
  argmax (scores_of item wd m ev mm explore g).

Definition best_price_of (item wd : string) (m : Z) (ev : bool) (mm : option pyfloat)
    (explore : bool) (g : list R) : R :=
  default 0 (g !! best_idx_of item wd m ev mm explore g).

Definition best_row_of (item wd : string) (m : Z) (ev : bool) (mm : option pyfloat)
    (explore : bool) (g : list R) : CandRow :=
  candidate item wd m (Z.b2z ev) mm (alpha_of explore)
    (dispersion enc wd m (Z.b2z ev)) (best_price_of item wd m ev mm explore g).

Definition pretty_of (item wd : string) (m : Z) (ev : bool) (mm : option pyfloat)
    (explore : bool) (g : list R) : Pretty :=
  {| artifact_path := ARTIFACT;
     item_id := item;
     context := {| weekday := wd; month := m; is_event := Z.b2z ev |};
     grid := g;
     chosen_price := best_price_of item wd m ev mm explore g;
     arm_index := best_idx_of item wd m ev mm explore g;
     scores_ucb := scores_of item wd m ev mm explore g |}.

Definition summary_of (item wd : string) (m : Z) (ev : bool) (mm : option pyfloat)
    (explore : bool) (g : list R) : Summary :=
  {| sum_price := best_price_of item wd m ev mm explore g;
     sum_item := item;
     sum_weekday := wd;
     sum_month := m;
     sum_event := (Z.b2z ev =? 1)%Z;
     sum_units := exp_qty (best_row_of item wd m ev mm explore g);
     sum_revenue := exp_rev (best_row_of item wd m ev mm explore g);
     guardrail_applied := if existsb (below mm) g then mm else None;
     exploration_enabled := Rltb 0 (alpha_of explore) |}.

(** The outputs of a request that passes the three checks. *)
Definition decision (item wd : string) (m : Z) (ev : bool) (mm : option pyfloat)
    (explore : bool) (g : list R) : Outputs :=
  {| out_json := Json (pretty_of item wd m ev mm explore g);
     out_tbl := sort_values (rows_of item wd m ev mm explore g);
     note := Recommended (best_price_of item wd m ev mm explore g);
     human := Some (summary_of item wd m ev mm explore g) |}.

(** The score of the candidate at price [p]. *)
Definition score_of (item wd : string) (m : Z) (ev : bool) (mm : option pyfloat)
    (explore : bool) (p : R) : R :=
  ucb (candidate item wd m (Z.b2z ev) mm (alpha_of explore)
         (dispersion enc wd m (Z.b2z ev)) p).

(** ** Facts about the building blocks *)

Lemma Rltb_true x y : Rltb x y = true <-> x < y.
Proof. unfold Rltb. destruct (Rlt_dec x y); split; intros; auto; discriminate. Qed.

Lemma Rltb_false x y : Rltb x y = false <-> y <= x.
Proof.
  unfold Rltb. destruct (Rlt_dec x y); split; intros; auto; try discriminate; lra.
Qed.

Example float_2_75 : py_float "2.75" = Some (Finite 2.75).
Proof. float_literal. Qed.

Example float_inf : py_float " -Infinity " = Some NegInf.
Proof. float_literal. Qed.

Example float_abc : py_float "abc" = None.
Proof. vm_compute. reflexivity. Qed.

Example float_underscore : py_float "1__0" = None.
Proof. vm_compute. reflexivity. Qed.

Example float_exp : py_float "1_0.e-1" = Some (Finite 1).
Proof. float_literal. Qed.

Example strip_tabs : strip (String (ascii_of_nat 9) " 7.50  ") = "7.50"%string.
Proof. reflexivity. Qed.

Lemma Eff_bind_returns {A B : Type} (f : A -> Eff B) (a : A) (t : list Row) :
  mbind f (Returns a, t) = (result (f a), t ++ calls (f a)).
Proof. unfold mbind, Eff_bind, result, calls. destruct (f a); reflexivity. Qed.

Lemma Eff_bind_raises {A B : Type} (f : A -> Eff B) (e : exn) (t : list Row) :
  mbind f (Raises e, t) = (Raises e, t).
Proof. reflexivity. Qed.

Lemma Eff_bind_ret {A B : Type} (f : A -> Eff B) (a : A) :
  mbind f (mret a) = f a.
Proof. unfold mret, Eff_ret. rewrite Eff_bind_returns. destruct (f a); reflexivity. Qed.

Lemma py_max_Rmax a b : py_max a b = Rmax a b.
Proof.
  unfold py_max, Rmax. destruct (Rltb a b) eqn:E.
  - apply Rltb_true in E. destruct (Rle_dec a b); [reflexivity | lra].
  - apply Rltb_false in E. destruct (Rle_dec a b); [lra | reflexivity].
Qed.

Lemma py_max_floor b : 0 <= py_max 0.0 b.
Proof. rewrite py_max_Rmax. replace 0.0 with 0 by lra. apply Rmax_l. Qed.

Lemma sentinel_neg : sentinel < 0.
Proof. unfold sentinel. lra. Qed.

(** [argmax_from] continues a scan: [pre] is what was read, [bi] the
    first position of its maximum [b]. *)
Lemma argmax_from_spec (l pre : list R) (bi : nat) (b : R) :
  pre !! bi = Some b ->
  (forall j y, pre !! j = Some y -> y <= b) ->
  (forall j y, (j < bi)%nat -> pre !! j = Some y -> y < b) ->
  exists m, (pre ++ l) !! argmax_from bi b (length pre) l = Some m
    /\ (forall j y, (pre ++ l) !! j = Some y -> y <= m)
    /\ (forall j y, (j < argmax_from bi b (length pre) l)%nat ->
          (pre ++ l) !! j = Some y -> y < m).
Proof.
  revert pre bi b. induction l as [|x l IH]; intros pre bi b Hb Hle Hlt.
  - simpl. rewrite app_nil_r. eauto.
  - simpl. replace (pre ++ x :: l) with ((pre ++ [x]) ++ l)
      by (rewrite <- app_assoc; reflexivity).
    replace (S (length pre)) with (length (pre ++ [x]))
      by (rewrite length_app; simpl; lia).
    destruct (Rltb b x) eqn:E.
    + apply Rltb_true in E. apply IH.
      * rewrite lookup_app_r by lia. replace (length pre - length pre)%nat with 0%nat by lia.
        reflexivity.
      * intros j y Hj. apply lookup_snoc_Some in Hj as [[_ Hj] | [_ ->]].
        -- apply Hle in Hj. lra.
        -- lra.
      * intros j y Hlen Hj. apply lookup_snoc_Some in Hj as [[_ Hj] | [-> _]].
        -- apply Hle in Hj. lra.
        -- lia.
    + apply Rltb_false in E. apply IH.
      * apply lookup_app_l_Some. exact Hb.
      * intros j y Hj. apply lookup_snoc_Some in Hj as [[_ Hj] | [_ ->]].
        -- eapply Hle; eauto.
        -- exact E.
      * intros j y Hlen Hj. apply lookup_snoc_Some in Hj as [[_ Hj] | [-> _]].
        -- eapply Hlt; eauto.
        -- apply lookup_lt_Some in Hb. lia.
Qed.

Lemma index_lookup {A : Type} (xs : list A) (i : nat) (x : A) :
  xs !! i = Some x -> index xs i = mret x.
Proof. unfold index. intros ->. reflexivity. Qed.

Lemma np_argmax_returns (l : list R) :
  l <> [] -> np_argmax l = (Returns (argmax l), []).
Proof. destruct l; [congruence | reflexivity]. Qed.

Lemma argmax_spec (l : list R) :
  l <> [] ->
  exists m, l !! argmax l = Some m
    /\ (forall j y, l !! j = Some y -> y <= m)
    /\ (forall j y, (j < argmax l)%nat -> l !! j = Some y -> y < m).
Proof.
  destruct l as [|x l]; [congruence|]. intros _.
  apply (argmax_from_spec l [x] 0 x).
  - reflexivity.
  - intros [|j] y Hj; simpl in Hj; [injection Hj as ->; lra | discriminate].
  - intros j y Hj. lia.
Qed.



Lemma expected_qty_positive item wd m ev p :
  0 < p ->
  expected_qty model_pipe item wd m ev p
  = (Returns (quantity item wd m ev p), [feature_row item wd m ev p]).
Proof.
  intros Hp. unfold expected_qty, math_log.
  apply Rltb_true in Hp. rewrite Hp. rewrite Eff_bind_ret.
  unfold predict. rewrite Eff_bind_returns. reflexivity.
Qed.

Lemma expected_revenue_positive item wd m ev p :
  0 < p ->
  expected_revenue model_pipe item wd m ev p
  = (Returns (p * quantity item wd m ev p), [feature_row item wd m ev p]).
Proof.
  intros Hp. unfold expected_revenue. rewrite expected_qty_positive by exact Hp.
  rewrite Eff_bind_returns. reflexivity.
Qed.

Lemma expected_qty_nonpositive item wd m ev p :
  p <= 0 ->
  expected_qty model_pipe item wd m ev p = (Raises (ValueError "math domain error"), []).
Proof.
  intros Hp. unfold expected_qty, math_log.
  apply Rltb_false in Hp. rewrite Hp. reflexivity.
Qed.

Lemma quantity_nonneg item wd m ev p : 0 <= quantity item wd m ev p.
Proof. apply py_max_floor. Qed.

(** The loop appends one candidate per price, in order. *)
Lemma score_grid_spec item wd m ev mm alpha sigma ps :
  Forall (fun p => below mm p = false -> 0 < p) ps ->
  forall rows scores penalized,
  score_grid model_pipe item wd m ev mm alpha sigma ps rows scores penalized
  = (Returns (rows ++ (candidate item wd m ev mm alpha sigma <$> ps),
              scores ++ (ucb <$> (candidate item wd m ev mm alpha sigma <$> ps)),
              penalized || existsb (below mm) ps),
     concat (candidate_calls item wd m ev mm <$> ps)).
Proof.
  induction 1 as [|p ps Hp _ IH]; intros rows scores penalized; simpl.
  - rewrite !app_nil_r, orb_false_r. reflexivity.
  - unfold candidate at 1 3, candidate_calls at 1. destruct (below mm p) eqn:E.
    + rewrite IH. rewrite <- !app_assoc, orb_true_r. simpl.
      destruct penalized; reflexivity.
    + specialize (Hp eq_refl).
      rewrite expected_revenue_positive by exact Hp. rewrite Eff_bind_returns.
      rewrite expected_qty_positive by exact Hp. rewrite Eff_bind_returns.
      rewrite IH. rewrite <- !app_assoc. simpl. reflexivity.
Qed.

Lemma price_candidate item wd m ev mm alpha sigma p :
  price (candidate item wd m ev mm alpha sigma p) = p.
Proof. unfold candidate. destruct (below mm p); reflexivity. Qed.

Lemma first_row_with_price item wd m ev mm alpha sigma (g : list R) (p : R) :
  p ∈ g ->
  filter (fun r => price r = p) (candidate item wd m ev mm alpha sigma <$> g) !! 0%nat
  = Some (candidate item wd m ev mm alpha sigma p).
Proof.
  induction g as [|x g IH]; intros Hin.
  - apply elem_of_nil in Hin. contradiction.
  - rewrite fmap_cons, filter_cons. rewrite price_candidate.
    destruct (decide (x = p)) as [->|Hne]; [reflexivity|].
    apply elem_of_cons in Hin as [->|Hin]; [congruence | auto].
Qed.

Lemma argmax_in_range (l : list R) : l <> [] -> (argmax l < length l)%nat.
Proof.
  intros Hl. destruct (argmax_spec l Hl) as (m & Hm & _).
  eapply lookup_lt_Some; eauto.
Qed.

Lemma choose_price_spec item wd m ev min_margin explore g mm :
  preconditions item min_margin g mm ->
  Forall (fun p => below mm p = false -> 0 < p) g ->
  choose_price ARTIFACT enc price_grid model_pipe (Some item) wd m ev min_margin explore
  = (Returns (decision item wd m ev mm explore g),
     concat (candidate_calls item wd m (Z.b2z ev) mm <$> g)).
Proof.
  intros (Hitem & Hgrid & Hlen & Hmm) Hpos.
  unfold choose_price. destruct item as [|c item]; [congruence|].
  rewrite Hgrid. simpl default.
  assert (Hne : g <> []) by (destruct g; simpl in Hlen; [lia | congruence]).
  rewrite bool_decide_eq_false_2 by exact Hne.
  replace (length g <? 2)%nat with false by (symmetry; apply Nat.ltb_ge; exact Hlen).
  simpl orb. cbv iota. rewrite Hmm.
  rewrite score_grid_spec by exact Hpos.
  rewrite Eff_bind_returns. simpl app. rewrite orb_false_l.
  set (sigma := dispersion enc wd m (Z.b2z ev)).
  set (alpha := if explore then 0.8 else 0.0).
  set (rows := candidate (String c item) wd m (Z.b2z ev) mm alpha sigma <$> g).
  assert (Hscores : ucb <$> rows <> []).
  { subst rows. destruct g; [congruence | discriminate]. }
  rewrite np_argmax_returns by exact Hscores. rewrite Eff_bind_returns.
  assert (Hlt : (argmax (ucb <$> rows) < length g)%nat).
  { pose proof (argmax_in_range _ Hscores) as Hlt.
    subst rows. rewrite !length_fmap in Hlt. exact Hlt. }
  destruct (lookup_lt_is_Some_2 g _ Hlt) as [bp Hbp].
  rewrite (index_lookup _ _ _ Hbp), Eff_bind_ret.
  subst rows. erewrite index_lookup
    by (apply first_row_with_price; eapply list_elem_of_lookup_2; exact Hbp).
  rewrite Eff_bind_ret. unfold result, calls, mret, Eff_ret. simpl.
  rewrite !app_nil_r.
  unfold decision, summary_of, pretty_of, best_row_of, best_price_of, best_idx_of,
    scores_of, rows_of, alpha_of.
  fold sigma alpha. rewrite Hbp. reflexivity.
Qed.

Lemma dispersion_nonneg wd m ev : 0 <= dispersion enc wd m ev.
Proof. unfold dispersion. apply sqrt_pos. Qed.

Lemma alpha_of_nonneg explore : 0 <= alpha_of explore.
Proof. unfold alpha_of. destruct explore; lra. Qed.

Lemma candidate_blocked item wd m ev mm alpha sigma p :
  below mm p = true -> candidate item wd m ev mm alpha sigma p = blocked_row p.
Proof. unfold candidate. intros ->. reflexivity. Qed.


Lemma scores_lookup item wd m ev mm alpha sigma (g : list R) (i : nat) :
  (ucb <$> (candidate item wd m ev mm alpha sigma <$> g)) !! i
  = (fun p => ucb (candidate item wd m ev mm alpha sigma p)) <$> (g !! i).
Proof. rewrite !list_lookup_fmap. destruct (g !! i); reflexivity. Qed.

Lemma scores_of_lookup item wd m ev mm explore (g : list R) (i : nat) :
  scores_of item wd m ev mm explore g !! i
  = score_of item wd m ev mm explore <$> (g !! i).
Proof. apply scores_lookup. Qed.

(** The chosen index of a decision: in range, first among the maxima. *)
Lemma decision_argmax item wd m ev mm explore (g : list R) :
  g <> [] ->
  exists bp,
    g !! best_idx_of item wd m ev mm explore g = Some bp
    /\ best_price_of item wd m ev mm explore g = bp
    /\ scores_of item wd m ev mm explore g !! best_idx_of item wd m ev mm explore g
       = Some (score_of item wd m ev mm explore bp)
    /\ (forall j p, g !! j = Some p ->
          score_of item wd m ev mm explore p <= score_of item wd m ev mm explore bp)
    /\ (forall j p, (j < best_idx_of item wd m ev mm explore g)%nat -> g !! j = Some p ->
          score_of item wd m ev mm explore p < score_of item wd m ev mm explore bp).
Proof.
  intros Hne. unfold best_price_of, best_idx_of.
  set (scores := scores_of item wd m ev mm explore g).
  assert (Hs : scores <> []).
  { subst scores. unfold scores_of, rows_of. destruct g; [congruence | discriminate]. }
  destruct (argmax_spec scores Hs) as (s & Hbest & Hle & Hlt).
  assert (Hlook : forall i, scores !! i = score_of item wd m ev mm explore <$> (g !! i))
    by (intros i; apply scores_of_lookup).
  pose proof Hbest as Hbest'. rewrite Hlook in Hbest'.
  destruct (g !! argmax scores) as [bp|] eqn:Hbp; [|discriminate].
  simpl in Hbest'. injection Hbest' as <-.
  exists bp. split; [reflexivity|]. split; [reflexivity|]. split; [exact Hbest|]. split.
  - intros j p Hj. apply (Hle j). rewrite Hlook, Hj. reflexivity.
  - intros j p Hlt' Hj. apply (Hlt j); [exact Hlt'|]. rewrite Hlook, Hj. reflexivity.
Qed.



Lemma positive_grid_scored (mm : option pyfloat) (g : list R) :
  Forall (fun p => 0 < p) g -> Forall (fun p => below mm p = false -> 0 < p) g.
Proof. intros H. eapply Forall_impl; [exact H | auto]. Qed.

Lemma preconditions_nonempty item min_margin g mm :
  preconditions item min_margin g mm -> g <> [].
Proof. intros (_ & _ & Hlen & _) ->. simpl in Hlen. lia. Qed.


(** A scored price that is not positive stops the loop with the domain
    error of [math.log]. *)
Lemma score_grid_raises item wd m ev mm alpha sigma ps :
  Exists (fun p => ~ (below mm p = false -> 0 < p)) ps ->
  forall rows scores penalized,
  result (score_grid model_pipe item wd m ev mm alpha sigma ps rows scores penalized)
  = Raises (ValueError "math domain error").
Proof.
  induction ps as [|p ps IH]; intros Hex rows scores penalized.
  - inversion Hex.
  - simpl. destruct (below mm p) eqn:E.
    + apply IH. inversion Hex as [? ? Hp | ? ? Htl]; subst; [|exact Htl].
      exfalso. apply Hp. congruence.
    + destruct (Rlt_dec 0 p) as [Hp | Hp].
      * rewrite expected_revenue_positive by exact Hp. rewrite Eff_bind_returns.
        rewrite expected_qty_positive by exact Hp. rewrite Eff_bind_returns.
        unfold result at 1 2. simpl fst. apply IH.
        inversion Hex as [? ? Hp' | ? ? Htl]; subst; [|exact Htl].
        exfalso. apply Hp'. auto.
      * unfold expected_revenue. rewrite expected_qty_nonpositive by lra. reflexivity.
Qed.

Lemma scored_positive_dec (mm : option pyfloat) (g : list R) :
  Forall (fun p => below mm p = false -> 0 < p) g
  \/ Exists (fun p => ~ (below mm p = false -> 0 < p)) g.
Proof.
  induction g as [|p g [IH | IH]].
  - left. constructor.
  - destruct (below mm p) eqn:E.
    + left. constructor; [congruence | exact IH].
    + destruct (Rlt_dec 0 p) as [Hp | Hp].
      * left. constructor; auto.
      * right. constructor. intros H. apply Hp, H. exact E.
  - right. constructor 2. exact IH.
Qed.

Lemma choose_price_raises item wd m ev min_margin explore g mm :
  preconditions item min_margin g mm ->
  Exists (fun p => ~ (below mm p = false -> 0 < p)) g ->
  result (choose_price ARTIFACT enc price_grid model_pipe
            (Some item) wd m ev min_margin explore)
  = Raises (ValueError "math domain error").
Proof.
  intros (Hitem & Hgrid & Hlen & Hmm) Hex.
  unfold choose_price. destruct item as [|c item]; [congruence|].
  rewrite Hgrid. simpl default.
  assert (Hne : g <> []) by (destruct g; simpl in Hlen; [lia | congruence]).
  rewrite bool_decide_eq_false_2 by exact Hne.
  replace (length g <? 2)%nat with false by (symmetry; apply Nat.ltb_ge; exact Hlen).
  simpl orb. cbv iota. rewrite Hmm.
  match goal with
  | |- context [score_grid ?a ?b ?c ?d ?e ?f ?h ?i ?j ?k ?l ?n] =>
      pose proof (score_grid_raises b c d e f h i j Hex k l n) as Hr;
      destruct (score_grid a b c d e f h i j k l n) as [o t]
  end.
  simpl in Hr. subst o. reflexivity.
Qed.

(** A request that passes the three checks and returns has scored only
    positive prices, and returns the decision. *)
Lemma choose_price_returns_inv item wd m ev min_margin explore g mm out :
  preconditions item min_margin g mm ->
  result (choose_price ARTIFACT enc price_grid model_pipe
            (Some item) wd m ev min_margin explore) = Returns out ->
  Forall (fun p => below mm p = false -> 0 < p) g
  /\ out = decision item wd m ev mm explore g.
Proof.
  intros Hpre Hret. destruct (scored_positive_dec mm g) as [Hpos | Hex].
  - split; [exact Hpos|].
    rewrite (choose_price_spec _ _ _ _ _ _ _ _ Hpre Hpos) in Hret.
    simpl in Hret. congruence.
  - rewrite (choose_price_raises _ _ _ _ _ _ _ _ Hpre Hex) in Hret. discriminate.
Qed.




(** [np.argmax] stays on the current best while nothing exceeds it. *)
Lemma argmax_from_keeps (l : list R) (bi i : nat) (b : R) :
  Forall (fun x => x <= b) l -> argmax_from bi b i l = bi.
Proof.
  revert i. induction l as [|x l IH]; intros i Hall; simpl; [reflexivity|].
  inversion Hall as [|? ? Hx Hl]; subst.
  replace (Rltb b x) with false by (symmetry; apply Rltb_false; exact Hx).
  apply IH. exact Hl.
Qed.

Lemma rows_all_blocked item wd m ev mm explore (g : list R) :
  Forall (fun p => below mm p = true) g ->
  rows_of item wd m ev mm explore g = blocked_row <$> g.
Proof.
  intros Hall. unfold rows_of. apply list_fmap_ext. intros i p Hi.
  apply candidate_blocked. rewrite Forall_forall in Hall.
  apply Hall. eapply list_elem_of_lookup_2; eauto.
Qed.

Lemma prices_of_rows item wd m ev mm explore (g : list R) :
  price <$> rows_of item wd m ev mm explore g = g.
Proof.
  unfold rows_of. rewrite <- list_fmap_compose.
  rewrite <- (list_fmap_id g) at 2. apply list_fmap_ext.
  intros i p _. apply price_candidate.
Qed.

Lemma marked_blocked_row p : marked_blocked (blocked_row p).
Proof. unfold marked_blocked, blocked_row. simpl. repeat split; lra. Qed.

(** C3. When the three checks pass and the guardrail [v] is strictly
    above every grid price, [choose_price] returns a decision and raises
    nothing (it asks the model nothing): every candidate is marked
    blocked, every score is the sentinel, the summary reports the
    guardrail, and the chosen candidate is the first grid entry. *)
Theorem full_block_returns_first item wd m ev min_margin explore g v :
  preconditions item min_margin g (Some (Finite v)) ->
  Forall (fun p => p < v) g ->
  exists out pretty summary,
    choose_price ARTIFACT enc price_grid model_pipe
      (Some item) wd m ev min_margin explore = (Returns out, [])
    /\ out_json out = Json pretty
    /\ human out = Some summary
    /\ Forall marked_blocked (out_tbl out)
    /\ price <$> out_tbl out ≡ₚ g
    /\ scores_ucb pretty = replicate (length g) sentinel
    /\ guardrail_applied summary = Some (Finite v)
    /\ arm_index pretty = 0%nat
    /\ g !! 0%nat = Some (chosen_price pretty).
Proof.
  intros Hpre Hall.
  assert (Hblk : Forall (fun p => below (Some (Finite v)) p = true) g).
  { eapply Forall_impl; [exact Hall|]. intros p Hp. simpl. apply Rltb_true. exact Hp. }
  assert (Hpos : Forall (fun p => below (Some (Finite v)) p = false -> 0 < p) g).
  { eapply Forall_impl; [exact Hblk|]. simpl. intros p Hp Hq. congruence. }
  pose proof (preconditions_nonempty _ _ _ _ Hpre) as Hne.
  rewrite (choose_price_spec _ _ _ _ _ _ _ _ Hpre Hpos).
  assert (Hcalls : concat (candidate_calls item wd m (Z.b2z ev) (Some (Finite v)) <$> g) = []).
  { clear -Hblk. induction Hblk as [|p g Hp _ IH]; [reflexivity|].
    rewrite fmap_cons. simpl concat. unfold candidate_calls at 1. rewrite Hp. exact IH. }
  assert (Hscores : scores_of item wd m ev (Some (Finite v)) explore g
                    = replicate (length g) sentinel).
  { unfold scores_of. rewrite rows_all_blocked by exact Hblk.
    clear. induction g as [|p g IH]; [reflexivity|]. simpl. f_equal. exact IH. }
  assert (Hidx : best_idx_of item wd m ev (Some (Finite v)) explore g = 0%nat).
  { unfold best_idx_of. rewrite Hscores. destruct g as [|p g]; [reflexivity|].
    simpl. apply argmax_from_keeps. apply Forall_replicate. lra. }
  exists (decision item wd m ev (Some (Finite v)) explore g),
    (pretty_of item wd m ev (Some (Finite v)) explore g),
    (summary_of item wd m ev (Some (Finite v)) explore g).
  rewrite Hcalls.
  cbn [decision out_json human out_tbl pretty_of summary_of scores_ucb
       guardrail_applied arm_index chosen_price].
  do 3 (split; [reflexivity|]).
  split; [|split; [|split; [exact Hscores|split; [|split; [exact Hidx|]]]]].
  - unfold sort_values. rewrite merge_sort_Permutation.
    rewrite rows_all_blocked by exact Hblk.
    apply Forall_fmap, Forall_forall. intros p _. apply marked_blocked_row.
  - unfold sort_values. rewrite merge_sort_Permutation.
    rewrite prices_of_rows. reflexivity.
  - destruct g as [|p g]; [congruence|]. inversion Hblk; subst. simpl.
    replace (Rltb p v) with true. reflexivity.
  - unfold best_price_of. rewrite Hidx. destruct g; [congruence | reflexivity].
Qed.

(** C5. A request that names an item whose grid is missing or has fewer
    than two entries gets the no-usable-grid outcome, with empty result
    fields, and the model is not called. *)
Theorem unusable_grid_rejected item wd m ev min_margin explore :
  item <> EmptyString ->
  (forall g, price_grid !! item = Some g -> (length g < 2)%nat) ->
  choose_price ARTIFACT enc price_grid model_pipe (Some item) wd m ev min_margin explore
  = (Returns {| out_json := Cleared; out_tbl := [];
                note := Message ("No usable price grid for " +:+ item +:+ ".");
                human := None |}, []).
Proof.
  intros Hitem Hshort. unfold choose_price.
  destruct item as [|c item]; [congruence|].
  destruct (price_grid !! String c item) as [g|] eqn:Hg.
  - specialize (Hshort g eq_refl). simpl default.
    replace (length g <? 2)%nat with true by (symmetry; apply Nat.ltb_lt; exact Hshort).
    rewrite orb_true_r. reflexivity.
  - reflexivity.
Qed.

(** ** The range of [math.exp] *)

Lemma DBL_MAX_lt_pow : DBL_MAX < 2 ^ 1024.
Proof.
  unfold DBL_MAX.
  assert (H52 : 0 < / 2 ^ 52) by (apply Rinv_0_lt_compat, pow_lt; lra).
  assert (H1023 : 0 < 2 ^ 1023) by (apply pow_lt; lra).
  change (2 ^ 1024) with (2 * 2 ^ 1023).
  rewrite Rmult_minus_distr_r.
  assert (Hprod : 0 < / 2 ^ 52 * 2 ^ 1023) by (apply Rmult_lt_0_compat; assumption).
  lra.
Qed.

Lemma pow_le_DBL_MAX : 2 ^ 1023 <= DBL_MAX.
Proof.
  unfold DBL_MAX.
  assert (H1023 : 0 < 2 ^ 1023) by (apply pow_lt; lra).
  assert (H52 : / 2 ^ 52 <= 1).
  { rewrite <- Rinv_1. apply Rinv_le_contravar; [lra|]. apply pow_R1_Rle. lra. }
  rewrite <- (Rmult_1_l (2 ^ 1023)) at 1.
  apply Rmult_le_compat_r; lra.
Qed.

(** Every number up to 16 is far inside the doubles. *)
Lemma small_le_DBL_MAX x : x <= 16 -> x <= DBL_MAX.
Proof.
  intros Hx. apply Rle_trans with (2 ^ 4); [simpl; lra|].
  apply Rle_trans with (2 ^ 1023); [|exact pow_le_DBL_MAX].
  apply Rle_pow; [lra | lia].
Qed.

Lemma exp_INR (n : nat) : exp (INR n) = exp 1 ^ n.
Proof.
  induction n as [|n IH]; [simpl; apply exp_0|].
  rewrite S_INR, exp_plus, IH. simpl. apply Rmult_comm.
Qed.

(** From 1024 on the exponential is beyond the largest double. *)
Lemma exp_beyond_DBL_MAX x : 1024 <= x -> DBL_MAX < exp x.
Proof.
  intros Hx. apply Rlt_le_trans with (2 ^ 1024); [exact DBL_MAX_lt_pow|].
  apply Rle_trans with (exp 1024).
  - replace 1024 with (INR 1024) by (rewrite INR_IZR_INZ; reflexivity).
    rewrite exp_INR. apply pow_incr. split; [lra|].
    pose proof (exp_ineq1 1) as H. lra.
  - destruct Hx as [Hx | <-]; [left; apply exp_increasing; exact Hx | right; reflexivity].
Qed.

Lemma math_exp_in_range x : exp x <= DBL_MAX -> math_exp x = mret (exp x).
Proof.
  intros Hx. unfold math_exp. apply Rltb_false in Hx. rewrite Hx. reflexivity.
Qed.

Lemma math_exp_overflow x :
  DBL_MAX < exp x -> math_exp x = raise (OverflowError "math range error").
Proof.
  intros Hx. unfold math_exp. apply Rltb_true in Hx. rewrite Hx. reflexivity.
Qed.

Lemma expected_qty_ranged_in_range item wd m ev p :
  0 < p ->
  exp (model_pipe (feature_row item wd m ev p)) <= DBL_MAX ->
  expected_qty_ranged model_pipe item wd m ev p
  = (Returns (quantity item wd m ev p), [feature_row item wd m ev p]).
Proof.
  intros Hp Hmu. unfold expected_qty_ranged, math_log.
  apply Rltb_true in Hp. rewrite Hp. rewrite Eff_bind_ret.
  unfold predict. rewrite Eff_bind_returns.
  change (mkRow (ln p) wd m ev item) with (feature_row item wd m ev p).
  rewrite (math_exp_in_range _ Hmu). reflexivity.
Qed.

Lemma expected_qty_ranged_overflow item wd m ev p :
  0 < p ->
  DBL_MAX < exp (model_pipe (feature_row item wd m ev p)) ->
  expected_qty_ranged model_pipe item wd m ev p
  = (Raises (OverflowError "math range error"), [feature_row item wd m ev p]).
Proof.
  intros Hp Hmu. unfold expected_qty_ranged, math_log.
  apply Rltb_true in Hp. rewrite Hp. rewrite Eff_bind_ret.
  unfold predict. rewrite Eff_bind_returns.
  change (mkRow (ln p) wd m ev item) with (feature_row item wd m ev p).
  rewrite (math_exp_overflow _ Hmu). reflexivity.
Qed.

Lemma expected_qty_ranged_nonpositive item wd m ev p :
  p <= 0 ->
  expected_qty_ranged model_pipe item wd m ev p
  = (Raises (ValueError "math domain error"), []).
Proof.
  intros Hp. unfold expected_qty_ranged, math_log.
  apply Rltb_false in Hp. rewrite Hp. reflexivity.
Qed.

(** Inside the range of [math.exp] the ranged wrapper is [expected_qty]. *)
Lemma expected_qty_ranged_agrees item wd m ev p :
  (0 < p -> exp (model_pipe (feature_row item wd m ev p)) <= DBL_MAX) ->
  expected_qty_ranged model_pipe item wd m ev p
  = expected_qty model_pipe item wd m ev p.
Proof.
  intros Hmu. destruct (Rlt_le_dec 0 p) as [Hp | Hp].
  - rewrite expected_qty_ranged_in_range, expected_qty_positive by auto. reflexivity.
  - rewrite expected_qty_ranged_nonpositive, expected_qty_nonpositive by exact Hp.
    reflexivity.
Qed.

Lemma quantity_Rmax item wd m ev p :
  quantity item wd m ev p
  = Rmax 0 (exp (model_pipe (feature_row item wd m ev p)) - 1).
Proof.
  unfold quantity. rewrite py_max_Rmax.
  replace 0.0 with 0 by lra. replace 1.0 with 1 by lra. reflexivity.
Qed.

(** C8, amended.  For a positive price [expected_qty], with the range of
    [math.exp] kept, asks the model once on the row with the logarithm of
    the price.  When the exponential of the model's answer [mu] is a
    double (at most [DBL_MAX]) it returns the maximum of 0 and
    [exp mu - 1], which is never negative; when it is beyond, the
    OverflowError of [math.exp] is raised and nothing is returned. *)
Theorem expected_qty_floor_in_range item wd m ev p :
  0 < p ->
  let row := {| log_price := ln p; row_weekday := wd; row_month := m;
                row_is_event := ev; row_item_id := item |} in
  let mu := model_pipe row in
  (exp mu <= DBL_MAX ->
   expected_qty_ranged model_pipe item wd m ev p
   = (Returns (Rmax 0 (exp mu - 1)), [row])
   /\ expected_qty model_pipe item wd m ev p
      = expected_qty_ranged model_pipe item wd m ev p
   /\ 0 <= Rmax 0 (exp mu - 1))
  /\ (DBL_MAX < exp mu ->
      expected_qty_ranged model_pipe item wd m ev p
      = (Raises (OverflowError "math range error"), [row])).
Proof.
  intros Hp row mu. split.
  - intros Hmu. split; [|split; [|apply Rmax_l]].
    + rewrite expected_qty_ranged_in_range by assumption.
      rewrite quantity_Rmax. reflexivity.
    + symmetry. apply expected_qty_ranged_agrees. intros _. exact Hmu.
  - intros Hmu. apply expected_qty_ranged_overflow; assumption.
Qed.

Lemma positive_grid_returns item wd m ev min_margin explore g mm :
  preconditions item min_margin g mm ->
  Forall (fun p => 0 < p) g ->
  exists out,
    result (choose_price ARTIFACT enc price_grid model_pipe
              (Some item) wd m ev min_margin explore) = Returns out.
Proof.
  intros Hpre Hpos.
  rewrite (choose_price_spec _ _ _ _ _ _ _ _ Hpre (positive_grid_scored _ _ Hpos)).
  eexists. reflexivity.
Qed.


(** ** The table: rows in ascending price order *)

#[local] Instance price_le_total : Total price_le.
Proof. intros a b. unfold price_le. lra. Qed.

#[local] Instance price_le_trans : Transitive price_le.
Proof. intros a b c. unfold price_le. lra. Qed.

Lemma sort_values_ascending (rows : list CandRow) :
  StronglySorted Rle (price <$> sort_values rows).
Proof.
  unfold sort_values.
  apply (StronglySorted_fmap price price_le Rle); [auto|].
  apply StronglySorted_merge_sort; apply _.
Qed.






Lemma parse_2_75 : parse_min_margin (Some "2.75"%string) = Some (Some (Finite 2.75)).
Proof.
  unfold parse_min_margin.
  change (strip <$> Some "2.75"%string) with (Some "2.75"%string).
  change (String.eqb "2.75" "" || String.eqb "2.75" " ") with false.
  cbv iota. rewrite float_2_75. reflexivity.
Qed.




(** ** The early exits *)

Lemma rstrip_not_space (s : string) : rstrip s <> " "%string.
Proof.
  destruct s as [|c s]; simpl; [discriminate|].
  destruct (rstrip s) as [|a r].
  - destruct (is_space c) eqn:E; [discriminate|].
    intros H. injection H as ->. vm_compute in E. discriminate.
  - discriminate.
Qed.

Lemma short_grid_rejected item wd m ev min_margin explore :
  item <> EmptyString ->
  (length (default [] (price_grid !! item)) < 2)%nat ->
  choose_price ARTIFACT enc price_grid model_pipe (Some item) wd m ev min_margin explore
  = (Returns (rejected ("No usable price grid for " +:+ item +:+ ".")), []).
Proof.
  intros Hitem Hshort. unfold choose_price.
  destruct item as [|c item]; [congruence|].
  replace (length (default [] (price_grid !! String c item)) <? 2)%nat with true
    by (symmetry; apply Nat.ltb_lt; exact Hshort).
  rewrite orb_true_r. reflexivity.
Qed.

Lemma non_numeric_rejected item wd m ev s explore g :
  item <> EmptyString ->
  price_grid !! item = Some g ->
  (2 <= length g)%nat ->
  strip s <> EmptyString ->
  py_float (strip s) = None ->
  choose_price ARTIFACT enc price_grid model_pipe (Some item) wd m ev (Some s) explore
  = (Returns (rejected "min_margin must be numeric."), []).
Proof.
  intros Hitem Hgrid Hlen Hs Hfloat. unfold choose_price.
  destruct item as [|c item]; [congruence|].
  rewrite Hgrid. simpl default.
  assert (Hne : g <> []) by (destruct g; simpl in Hlen; [lia | congruence]).
  rewrite bool_decide_eq_false_2 by exact Hne.
  replace (length g <? 2)%nat with false by (symmetry; apply Nat.ltb_ge; exact Hlen).
  simpl orb. cbv iota. unfold parse_min_margin.
  change (strip <$> Some s) with (Some (strip s)). cbv beta iota zeta.
  rewrite (proj2 (String.eqb_neq _ _) Hs).
  rewrite (proj2 (String.eqb_neq (strip s) _) (rstrip_not_space (lstrip s))).
  simpl orb. cbv iota. rewrite Hfloat. reflexivity.
Qed.

(** C4, as the code has it.  A request that names an item gets the
    no-usable-grid outcome exactly when the item's grid is missing or has
    fewer than two entries; how many distinct prices the grid holds plays
    no part. *)
Theorem no_usable_grid_iff_short item wd m ev min_margin explore :
  item <> EmptyString ->
  result (choose_price ARTIFACT enc price_grid model_pipe
            (Some item) wd m ev min_margin explore)
  = Returns (rejected ("No usable price grid for " +:+ item +:+ "."))
  <-> (length (default [] (price_grid !! item)) < 2)%nat.
Proof.
  intros Hitem. split.
  - intros Hret.
    destruct (Nat.lt_ge_cases (length (default [] (price_grid !! item))) 2)
      as [Hlt | Hge]; [exact Hlt | exfalso].
    destruct (price_grid !! item) as [g|] eqn:Hgrid; [|simpl in Hge; lia].
    simpl in Hge.
    destruct (parse_min_margin min_margin) as [mm|] eqn:Hmm.
    + assert (Hpre : preconditions item min_margin g mm) by (repeat split; assumption).
      destruct (choose_price_returns_inv _ _ _ _ _ _ _ _ _ Hpre Hret) as [_ Hout].
      discriminate Hout.
    + revert Hret. unfold choose_price.
      destruct item as [|c item]; [congruence|].
      rewrite Hgrid. simpl default.
      assert (Hne : g <> []) by (destruct g; simpl in Hge; [lia | congruence]).
      rewrite bool_decide_eq_false_2 by exact Hne.
      replace (length g <? 2)%nat with false by (symmetry; apply Nat.ltb_ge; exact Hge).
      simpl orb. cbv iota. rewrite Hmm. unfold result, mret, Eff_ret. simpl fst.
      intros H. simpl in H. discriminate H.
  - intros Hshort. rewrite short_grid_rejected by assumption. reflexivity.
Qed.

(** C6, as the code has it.  For a request that names an item with a
    grid of two entries or more, a [min_margin] text that is not empty
    after trimming and that [float] rejects gives the validation failure
    [min_margin must be numeric.]: empty result fields, no scores, no
    call of the model, and an outcome different from every
    no-usable-grid outcome. *)
Theorem non_numeric_guardrail_rejected item wd m ev s explore g :
  item <> EmptyString ->
  price_grid !! item = Some g ->
  (2 <= length g)%nat ->
  strip s <> EmptyString ->
  py_float (strip s) = None ->
  choose_price ARTIFACT enc price_grid model_pipe (Some item) wd m ev (Some s) explore
  = (Returns {| out_json := Cleared; out_tbl := [];
                note := Message "min_margin must be numeric."; human := None |}, [])
  /\ forall item',
       result (choose_price ARTIFACT enc price_grid model_pipe
                 (Some item) wd m ev (Some s) explore)
       <> Returns (rejected ("No usable price grid for " +:+ item' +:+ ".")).
Proof.
  intros Hitem Hgrid Hlen Hs Hfloat.
  rewrite (non_numeric_rejected _ _ _ _ _ _ _ Hitem Hgrid Hlen Hs Hfloat).
  split; [reflexivity|].
  intros item' H. simpl in H. discriminate H.
Qed.

(** ** Further properties of the engine *)

Lemma expected_revenue_ranged_in_range item wd m ev p :
  0 < p ->
  exp (model_pipe (feature_row item wd m ev p)) <= DBL_MAX ->
  expected_revenue_ranged model_pipe item wd m ev p
  = (Returns (p * quantity item wd m ev p), [feature_row item wd m ev p]).
Proof.
  intros Hp Hmu. unfold expected_revenue_ranged.
  rewrite expected_qty_ranged_in_range by assumption.
  rewrite Eff_bind_returns. reflexivity.
Qed.

(** X1. For a positive price [expected_revenue], with the range of
    [math.exp] kept, calls the model once.  When the exponential of the
    model's answer is a double it returns the price times the quantity
    [expected_qty] returns, which is never negative; when it is beyond,
    the OverflowError of [math.exp] leaves both functions. *)
Theorem expected_revenue_in_range item wd m ev p :
  0 < p ->
  let row := {| log_price := ln p; row_weekday := wd; row_month := m;
                row_is_event := ev; row_item_id := item |} in
  let mu := model_pipe row in
  let q := Rmax 0 (exp mu - 1) in
  (exp mu <= DBL_MAX ->
   expected_revenue_ranged model_pipe item wd m ev p = (Returns (p * q), [row])
   /\ result (expected_qty_ranged model_pipe item wd m ev p) = Returns q
   /\ 0 <= p * q)
  /\ (DBL_MAX < exp mu ->
      expected_revenue_ranged model_pipe item wd m ev p
      = (Raises (OverflowError "math range error"), [row])
      /\ expected_qty_ranged model_pipe item wd m ev p
         = (Raises (OverflowError "math range error"), [row])).
Proof.
  intros Hp row mu q.
  assert (Hq : quantity item wd m ev p = q) by apply quantity_Rmax.
  split.
  - intros Hmu.
    rewrite expected_revenue_ranged_in_range, expected_qty_ranged_in_range
      by assumption.
    rewrite Hq. split; [reflexivity|]. split; [reflexivity|].
    apply Rmult_le_pos; [lra | apply Rmax_l].
  - intros Hmu. unfold expected_revenue_ranged.
    rewrite expected_qty_ranged_overflow by assumption.
    split; reflexivity.
Qed.

(** X2. For a price that is not positive both wrappers raise the
    ValueError of [math.log], and the model is not called. *)
Theorem nonpositive_price_raises item wd m ev p :
  p <= 0 ->
  expected_qty model_pipe item wd m ev p = (Raises (ValueError "math domain error"), [])
  /\ expected_revenue model_pipe item wd m ev p
     = (Raises (ValueError "math domain error"), []).
Proof.
  intros Hp. split; [apply expected_qty_nonpositive; exact Hp|].
  unfold expected_revenue. rewrite expected_qty_nonpositive by exact Hp. reflexivity.
Qed.

Lemma unparsed_rejected item wd m ev min_margin explore g :
  item <> EmptyString ->
  price_grid !! item = Some g ->
  (2 <= length g)%nat ->
  parse_min_margin min_margin = None ->
  choose_price ARTIFACT enc price_grid model_pipe (Some item) wd m ev min_margin explore
  = (Returns (rejected "min_margin must be numeric."), []).
Proof.
  intros Hitem Hgrid Hlen Hmm. unfold choose_price.
  destruct item as [|c item]; [congruence|].
  rewrite Hgrid. simpl default.
  assert (Hne : g <> []) by (destruct g; simpl in Hlen; [lia | congruence]).
  rewrite bool_decide_eq_false_2 by exact Hne.
  replace (length g <? 2)%nat with false by (symmetry; apply Nat.ltb_ge; exact Hlen).
  simpl orb. cbv iota. rewrite Hmm. reflexivity.
Qed.

(** Whatever the request, the three checks either reject it or pass. *)
Lemma checks_cases item min_margin :
  item <> EmptyString ->
  (length (default [] (price_grid !! item)) < 2)%nat
  \/ (exists g, price_grid !! item = Some g /\ (2 <= length g)%nat
                /\ parse_min_margin min_margin = None)
  \/ (exists g mm, preconditions item min_margin g mm).
Proof.
  intros Hitem.
  destruct (Nat.lt_ge_cases (length (default [] (price_grid !! item))) 2)
    as [Hlt | Hge]; [left; exact Hlt | right].
  destruct (price_grid !! item) as [g|] eqn:Hgrid; [|simpl in Hge; lia].
  simpl in Hge.
  destruct (parse_min_margin min_margin) as [mm|] eqn:Hmm.
  - right. exists g, mm. repeat split; assumption.
  - left. exists g. auto.
Qed.

(** X3. Whatever [choose_price] returns is either a rejection or a
    decision.  A rejection has empty result fields, comes without a call
    of the model, and its message is the one of the first check that
    fails: no item, a grid with fewer than two entries, or a guardrail
    text that is not a number.  A decision belongs to a named item that
    passed the three checks; its note and its summary name the price of
    its code block. *)
Theorem returned_outcomes request wd m ev min_margin explore out :
  result (choose_price ARTIFACT enc price_grid model_pipe
            request wd m ev min_margin explore) = Returns out ->
  (exists msg,
     choose_price ARTIFACT enc price_grid model_pipe request wd m ev min_margin explore
     = (Returns {| out_json := Cleared; out_tbl := []; note := Message msg;
                   human := None |}, [])
     /\ ((msg = "Pick an item_id."%string
          /\ (request = None \/ request = Some EmptyString))
         \/ (exists item,
               request = Some item /\ item <> EmptyString
               /\ (length (default [] (price_grid !! item)) < 2)%nat
               /\ msg = ("No usable price grid for " +:+ item +:+ "."))
         \/ (exists item g,
               request = Some item /\ item <> EmptyString
               /\ price_grid !! item = Some g /\ (2 <= length g)%nat
               /\ parse_min_margin min_margin = None
               /\ msg = "min_margin must be numeric."%string)))
  \/ (exists item g mm pretty summary,
        request = Some item
        /\ preconditions item min_margin g mm
        /\ out_json out = Json pretty
        /\ human out = Some summary
        /\ note out = Recommended (chosen_price pretty)
        /\ sum_price summary = chosen_price pretty
        /\ item_id pretty = item
        /\ grid pretty = g).
Proof.
  intros Hret.
  destruct request as [item|];
    [|left; eexists; split; [reflexivity | left; auto]].
  destruct (decide (item = EmptyString)) as [->|Hitem];
    [left; eexists; split; [reflexivity | left; auto]|].
  destruct (checks_cases item min_margin Hitem)
    as [Hshort | [(g & Hgrid & Hlen & Hmm) | (g & mm & Hpre)]].
  - left. eexists. split; [apply short_grid_rejected; assumption|].
    right. left. exists item. auto.
  - left. eexists. split; [eapply unparsed_rejected; eassumption|].
    right. right. exists item, g. auto 10.
  - right.
    destruct (choose_price_returns_inv _ _ _ _ _ _ _ _ _ Hpre Hret) as [_ ->].
    exists item, g, mm, (pretty_of item wd m ev mm explore g),
      (summary_of item wd m ev mm explore g).
    split; [reflexivity|]. split; [exact Hpre|].
    cbn [decision out_json human note pretty_of summary_of chosen_price
         sum_price item_id grid].
    split; [reflexivity|]. split; [reflexivity|]. split; [reflexivity|].
    split; [reflexivity|]. split; reflexivity.
Qed.




(** X6. The table of a returned decision holds the rows of the loop,
    nothing added or lost, in ascending order of price. *)
Theorem table_sorted_by_price item wd m ev min_margin explore g mm :
  preconditions item min_margin g mm ->
  forall out,
    result (choose_price ARTIFACT enc price_grid model_pipe
              (Some item) wd m ev min_margin explore) = Returns out ->
    StronglySorted Rle (price <$> out_tbl out)
    /\ price <$> out_tbl out ≡ₚ g
    /\ exists rows scores penalized,
         result (score_grid model_pipe item wd m (Z.b2z ev) mm
                   (if explore then 0.8 else 0.0) (dispersion enc wd m (Z.b2z ev))
                   g [] [] false)
         = Returns (rows, scores, penalized)
         /\ out_tbl out ≡ₚ rows.
Proof.
  intros Hpre out Hret.
  destruct (choose_price_returns_inv _ _ _ _ _ _ _ _ _ Hpre Hret) as [Hpos ->].
  cbn [decision out_tbl]. split; [apply sort_values_ascending|]. split.
  - unfold sort_values. rewrite merge_sort_Permutation, prices_of_rows. reflexivity.
  - exists (rows_of item wd m ev mm explore g), (scores_of item wd m ev mm explore g),
      (existsb (below mm) g).
    split; [rewrite score_grid_spec by exact Hpos; reflexivity|].
    unfold sort_values. apply merge_sort_Permutation.
Qed.

(** X7. In a returned decision every row that is not blocked has a
    positive price, the floored quantity of the model's answer on that
    price, a revenue equal to price times quantity, and a score equal to
    the revenue plus [alpha * sigma], which is never below the revenue. *)
Theorem scored_rows_consistent item wd m ev min_margin explore g mm :
  preconditions item min_margin g mm ->
  forall out,
    result (choose_price ARTIFACT enc price_grid model_pipe
              (Some item) wd m ev min_margin explore) = Returns out ->
    forall r, r ∈ out_tbl out -> below mm (price r) = false ->
      let row := {| log_price := ln (price r); row_weekday := wd; row_month := m;
                    row_is_event := Z.b2z ev; row_item_id := item |} in
      price r ∈ g
      /\ 0 < price r
      /\ exp_qty r = Rmax 0 (exp (model_pipe row) - 1)
      /\ exp_rev r = price r * exp_qty r
      /\ ucb r = exp_rev r + (if explore then 0.8 else 0.0) * dispersion enc wd m (Z.b2z ev)
      /\ 0 <= exp_rev r <= ucb r.
Proof.
  intros Hpre out Hret r Hr Hfree row.
  destruct (choose_price_returns_inv _ _ _ _ _ _ _ _ _ Hpre Hret) as [Hpos ->].
  cbn [decision out_tbl] in Hr. unfold sort_values in Hr.
  rewrite merge_sort_Permutation in Hr. unfold rows_of in Hr.
  apply list_elem_of_fmap in Hr as (p & -> & Hp).
  rewrite price_candidate in Hfree |- *. subst row. rewrite price_candidate.
  assert (H0 : 0 < p) by (rewrite Forall_forall in Hpos; apply Hpos; assumption).
  pose proof (quantity_nonneg item wd m (Z.b2z ev) p) as Hq.
  pose proof (alpha_of_nonneg explore) as Ha.
  pose proof (dispersion_nonneg wd m (Z.b2z ev)) as Hs.
  assert (0 <= p * quantity item wd m (Z.b2z ev) p) by (apply Rmult_le_pos; lra).
  assert (0 <= alpha_of explore * dispersion enc wd m (Z.b2z ev))
    by (apply Rmult_le_pos; lra).
  unfold candidate. rewrite Hfree. cbn [price exp_qty exp_rev ucb].
  split; [exact Hp|]. split; [exact H0|]. split.
  { unfold quantity, feature_row. rewrite py_max_Rmax.
    replace 0.0 with 0 by lra. replace 1.0 with 1 by lra. reflexivity. }
  split; [reflexivity|]. split; [reflexivity|].
  fold (alpha_of explore). lra.
Qed.

Lemma rows_of_lookup item wd m ev mm explore (g : list R) (i : nat) (p : R) :
  g !! i = Some p ->
  rows_of item wd m ev mm explore g !! i
  = Some (candidate item wd m (Z.b2z ev) mm (alpha_of explore)
            (dispersion enc wd m (Z.b2z ev)) p).
Proof. intros Hi. unfold rows_of. rewrite list_lookup_fmap, Hi. reflexivity. Qed.

(** X8. The note and the summary of a returned decision quote the chosen
    candidate: the price is the chosen price, and the units and revenue
    are those of the loop's row at the chosen index, also when the grid
    holds that price more than once. *)
Theorem summary_quotes_chosen_row item wd m ev min_margin explore g mm :
  preconditions item min_margin g mm ->
  forall out,
    result (choose_price ARTIFACT enc price_grid model_pipe
              (Some item) wd m ev min_margin explore) = Returns out ->
    exists pretty summary rows penalized row,
      out_json out = Json pretty
      /\ human out = Some summary
      /\ note out = Recommended (chosen_price pretty)
      /\ result (score_grid model_pipe item wd m (Z.b2z ev) mm
                   (if explore then 0.8 else 0.0) (dispersion enc wd m (Z.b2z ev))
                   g [] [] false)
         = Returns (rows, scores_ucb pretty, penalized)
      /\ rows !! arm_index pretty = Some row
      /\ price row = chosen_price pretty
      /\ scores_ucb pretty !! arm_index pretty = Some (ucb row)
      /\ sum_price summary = chosen_price pretty
      /\ sum_units summary = exp_qty row
      /\ sum_revenue summary = exp_rev row.
Proof.
  intros Hpre out Hret.
  destruct (choose_price_returns_inv _ _ _ _ _ _ _ _ _ Hpre Hret) as [Hpos ->].
  destruct (decision_argmax item wd m ev mm explore g
              (preconditions_nonempty _ _ _ _ Hpre)) as (bp & Hbp & Hprice & Hscore & _).
  exists (pretty_of item wd m ev mm explore g), (summary_of item wd m ev mm explore g),
    (rows_of item wd m ev mm explore g), (existsb (below mm) g),
    (best_row_of item wd m ev mm explore g).
  cbn [decision out_json human note pretty_of summary_of chosen_price arm_index
       scores_ucb sum_price sum_units sum_revenue].
  split; [reflexivity|]. split; [reflexivity|]. split; [reflexivity|].
  split; [rewrite score_grid_spec by exact Hpos; reflexivity|].
  unfold best_row_of. rewrite Hprice.
  split; [apply rows_of_lookup; exact Hbp|].
  split; [apply price_candidate|]. split; [exact Hscore|]. auto.
Qed.

(** X9. The summary of a returned decision reports the guardrail exactly
    when a guardrail is set and some grid price is below it, and reports
    exploration exactly when the explore flag is on. *)
Theorem summary_flags item wd m ev min_margin explore g mm :
  preconditions item min_margin g mm ->
  forall out,
    result (choose_price ARTIFACT enc price_grid model_pipe
              (Some item) wd m ev min_margin explore) = Returns out ->
    exists summary,
      human out = Some summary
      /\ exploration_enabled summary = explore
      /\ forall v, guardrail_applied summary = Some v
                   <-> mm = Some v /\ exists p, p ∈ g /\ below mm p = true.
Proof.
  intros Hpre out Hret.
  destruct (choose_price_returns_inv _ _ _ _ _ _ _ _ _ Hpre Hret) as [_ ->].
  exists (summary_of item wd m ev mm explore g).
  cbn [decision human summary_of exploration_enabled guardrail_applied].
  split; [reflexivity|]. split.
  { unfold alpha_of. destruct explore; [apply Rltb_true | apply Rltb_false]; lra. }
  intros v. destruct (existsb (below mm) g) eqn:E.
  - apply existsb_exists in E as (p & Hin & Hp).
    split; [intros ->; split; [reflexivity|] | intros [-> _]; reflexivity].
    exists p. split; [apply list_elem_of_In; exact Hin | exact Hp].
  - split; [discriminate|]. intros (_ & p & Hin & Hp).
    assert (existsb (below mm) g = true); [|congruence].
    apply existsb_exists. exists p. split; [apply list_elem_of_In; exact Hin | exact Hp].
Qed.

Lemma choose_price_parse_ext item_id wd m ev min_margin min_margin' explore :
  parse_min_margin min_margin = parse_min_margin min_margin' ->
  choose_price ARTIFACT enc price_grid model_pipe item_id wd m ev min_margin explore
  = choose_price ARTIFACT enc price_grid model_pipe item_id wd m ev min_margin' explore.
Proof. intros H. unfold choose_price. rewrite H. reflexivity. Qed.

(** X10. A [min_margin] text of white space only is no guardrail: the
    request is answered as if the field had been left out. *)
Theorem blank_min_margin_is_no_guardrail item_id wd m ev s explore :
  strip s = EmptyString ->
  choose_price ARTIFACT enc price_grid model_pipe item_id wd m ev (Some s) explore
  = choose_price ARTIFACT enc price_grid model_pipe item_id wd m ev None explore.
Proof.
  intros Hs. apply choose_price_parse_ext. unfold parse_min_margin.
  change (strip <$> Some s) with (Some (strip s)). cbv beta iota zeta.
  rewrite Hs. reflexivity.
Qed.

(** The loop reads the guardrail only through the comparison. *)
Lemma score_grid_below_ext item wd m ev mm mm' alpha sigma ps :
  (forall p, below mm p = below mm' p) ->
  forall rows scores penalized,
  score_grid model_pipe item wd m ev mm alpha sigma ps rows scores penalized
  = score_grid model_pipe item wd m ev mm' alpha sigma ps rows scores penalized.
Proof.
  intros Hext. induction ps as [|p ps IH]; intros rows scores penalized; simpl;
    [reflexivity|].
  rewrite Hext. destruct (below mm' p); [apply IH|].
  destruct (Rlt_dec 0 p) as [Hp | Hp].
  - rewrite expected_revenue_positive by exact Hp. rewrite !Eff_bind_returns.
    rewrite expected_qty_positive by exact Hp. rewrite !Eff_bind_returns.
    rewrite IH. reflexivity.
  - unfold expected_revenue. rewrite expected_qty_nonpositive by lra. reflexivity.
Qed.

(** The flag [penalized] the loop returns: set on entry, or some price
    was below the guardrail. *)
Lemma score_grid_penalized item wd m ev mm alpha sigma ps :
  forall rows scores penalized rows' scores' penalized',
  result (score_grid model_pipe item wd m ev mm alpha sigma ps rows scores penalized)
  = Returns (rows', scores', penalized') ->
  penalized' = penalized || existsb (below mm) ps.
Proof.
  induction ps as [|p ps IH]; intros rows scores penalized rows' scores' penalized'; simpl.
  - unfold result, mret, Eff_ret. simpl. intros [= _ _ <-]. rewrite orb_false_r. reflexivity.
  - destruct (below mm p) eqn:E.
    + intros H. apply IH in H. rewrite H, orb_true_r. reflexivity.
    + destruct (Rlt_dec 0 p) as [Hp | Hp].
      * rewrite expected_revenue_positive by exact Hp. rewrite Eff_bind_returns.
        rewrite expected_qty_positive by exact Hp. rewrite Eff_bind_returns.
        unfold result at 1 2. simpl fst. apply IH.
      * unfold expected_revenue. rewrite expected_qty_nonpositive by lra. discriminate.
Qed.

Lemma never_below_is_no_guardrail item_id wd m ev min_margin explore mm :
  parse_min_margin min_margin = Some mm ->
  (forall p, below mm p = false) ->
  choose_price ARTIFACT enc price_grid model_pipe item_id wd m ev min_margin explore
  = choose_price ARTIFACT enc price_grid model_pipe item_id wd m ev None explore.
Proof.
  intros Hmm Hnever. unfold choose_price.
  destruct item_id as [[|c item]|]; [reflexivity | | reflexivity].
  destruct (bool_decide (default [] (price_grid !! String c item) = [])
            || (length (default [] (price_grid !! String c item)) <? 2)%nat);
    [reflexivity|].
  rewrite Hmm. change (parse_min_margin None) with (Some (@None pyfloat)). cbv iota.
  rewrite (score_grid_below_ext _ _ _ _ mm None) by (intros p; rewrite Hnever; reflexivity).
  destruct (score_grid model_pipe (String c item) wd m (Z.b2z ev) None
              (if explore then 0.8 else 0.0) (dispersion enc wd m (Z.b2z ev))
              (default [] (price_grid !! String c item)) [] [] false)
    as [[[[rows scores] penalized]|e] t] eqn:E; [|reflexivity].
  assert (Hpen : penalized = false).
  { pose proof (score_grid_penalized _ _ _ _ _ _ _ _ _ _ _ rows scores penalized
                  (f_equal fst E)) as H.
    rewrite H. simpl. clear. induction (default [] (price_grid !! String c item));
      [reflexivity | exact IHl]. }
  subst penalized. reflexivity.
Qed.

(** X11. A guardrail text that [float] reads as [nan] or as minus
    infinity blocks nothing and is not reported: the request is answered
    as if no guardrail had been given. *)
Theorem unordered_guardrail_is_no_guardrail item_id wd m ev min_margin explore :
  parse_min_margin min_margin = Some (Some NaN)
  \/ parse_min_margin min_margin = Some (Some NegInf) ->
  choose_price ARTIFACT enc price_grid model_pipe item_id wd m ev min_margin explore
  = choose_price ARTIFACT enc price_grid model_pipe item_id wd m ev None explore.
Proof.
  intros [H | H]; eapply never_below_is_no_guardrail; try exact H; reflexivity.
Qed.

Lemma all_blocked_decision item wd m ev min_margin explore g mm :
  preconditions item min_margin g mm ->
  Forall (fun p => below mm p = true) g ->
  exists out pretty summary,
    choose_price ARTIFACT enc price_grid model_pipe
      (Some item) wd m ev min_margin explore = (Returns out, [])
    /\ out_json out = Json pretty
    /\ human out = Some summary
    /\ Forall marked_blocked (out_tbl out)
    /\ price <$> out_tbl out ≡ₚ g
    /\ scores_ucb pretty = replicate (length g) sentinel
    /\ guardrail_applied summary = mm
    /\ arm_index pretty = 0%nat
    /\ g !! 0%nat = Some (chosen_price pretty).
Proof.
  intros Hpre Hblk.
  assert (Hpos : Forall (fun p => below mm p = false -> 0 < p) g).
  { eapply Forall_impl; [exact Hblk|]. simpl. intros p Hp Hq. congruence. }
  pose proof (preconditions_nonempty _ _ _ _ Hpre) as Hne.
  rewrite (choose_price_spec _ _ _ _ _ _ _ _ Hpre Hpos).
  assert (Hcalls : concat (candidate_calls item wd m (Z.b2z ev) mm <$> g) = []).
  { clear -Hblk. induction Hblk as [|p g Hp _ IH]; [reflexivity|].
    rewrite fmap_cons. simpl concat. unfold candidate_calls at 1. rewrite Hp. exact IH. }
  assert (Hscores : scores_of item wd m ev mm explore g = replicate (length g) sentinel).
  { unfold scores_of. rewrite rows_all_blocked by exact Hblk.
    clear. induction g as [|p g IH]; [reflexivity|]. simpl. f_equal. exact IH. }
  assert (Hidx : best_idx_of item wd m ev mm explore g = 0%nat).
  { unfold best_idx_of. rewrite Hscores. destruct g as [|p g]; [reflexivity|].
    simpl. apply argmax_from_keeps. apply Forall_replicate. lra. }
  exists (decision item wd m ev mm explore g), (pretty_of item wd m ev mm explore g),
    (summary_of item wd m ev mm explore g).
  rewrite Hcalls.
  cbn [decision out_json human out_tbl pretty_of summary_of scores_ucb
       guardrail_applied arm_index chosen_price].
  do 3 (split; [reflexivity|]).
  split; [|split; [|split; [exact Hscores|split; [|split; [exact Hidx|]]]]].
  - unfold sort_values. rewrite merge_sort_Permutation.
    rewrite rows_all_blocked by exact Hblk.
    apply Forall_fmap, Forall_forall. intros p _. apply marked_blocked_row.
  - unfold sort_values. rewrite merge_sort_Permutation, prices_of_rows. reflexivity.
  - destruct g as [|p g]; [congruence|]. inversion Hblk as [|? ? Hp _]; subst.
    simpl. rewrite Hp. reflexivity.
  - unfold best_price_of. rewrite Hidx. destruct g; [congruence | reflexivity].
Qed.

(** X12. A guardrail text that [float] reads as plus infinity blocks the
    whole grid, whatever its prices: a decision is still returned, the
    model is not called, every row and score is the blocked one, the
    summary reports the guardrail, and the first grid entry is chosen. *)
Theorem infinite_guardrail_blocks_all item wd m ev min_margin explore g :
  preconditions item min_margin g (Some PosInf) ->
  exists out pretty summary,
    choose_price ARTIFACT enc price_grid model_pipe
      (Some item) wd m ev min_margin explore = (Returns out, [])
    /\ out_json out = Json pretty
    /\ human out = Some summary
    /\ Forall marked_blocked (out_tbl out)
    /\ price <$> out_tbl out ≡ₚ g
    /\ scores_ucb pretty = replicate (length g) sentinel
    /\ guardrail_applied summary = Some PosInf
    /\ arm_index pretty = 0%nat
    /\ g !! 0%nat = Some (chosen_price pretty).
Proof.
  intros Hpre. apply all_blocked_decision; [exact Hpre|].
  apply Forall_forall. intros p _. reflexivity.
Qed.

Lemma one_hot_sum (l : list R) :
  Forall (fun x => x = 0 \/ x = 1) l ->
  foldr Rplus 0 ((fun x => x * (1 - x)) <$> l) = 0.
Proof.
  induction 1 as [|x l [-> | ->] _ IH]; [reflexivity | |];
    rewrite fmap_cons; simpl foldr; rewrite IH; lra.
Qed.

Lemma dispersion_one_hot wd m ev :
  Forall (fun x => x = 0 \/ x = 1) (enc wd m ev) -> dispersion enc wd m ev = 0.
Proof. intros Hx. unfold dispersion. rewrite one_hot_sum by exact Hx. apply sqrt_0. Qed.

Lemma rows_of_no_dispersion item wd m ev mm (g : list R) :
  dispersion enc wd m (Z.b2z ev) = 0 ->
  rows_of item wd m ev mm true g = rows_of item wd m ev mm false g.
Proof.
  intros Hs. unfold rows_of. apply list_fmap_ext. intros i p _.
  unfold candidate. destruct (below mm p); [reflexivity|].
  rewrite Hs. simpl. f_equal. unfold alpha_of. lra.
Qed.

(** X13. When the encoded context is one-hot (every entry 0 or 1), sigma
    is 0 and the exploration bonus vanishes: the score of every row that
    is not blocked is its revenue, and the explore flag changes neither
    the JSON (scores, chosen index and price), nor the table, nor the
    note. *)
Theorem one_hot_context_no_bonus item wd m ev min_margin g mm :
  preconditions item min_margin g mm ->
  Forall (fun x => x = 0 \/ x = 1) (enc wd m (Z.b2z ev)) ->
  dispersion enc wd m (Z.b2z ev) = 0
  /\ (forall explore out r,
        result (choose_price ARTIFACT enc price_grid model_pipe
                  (Some item) wd m ev min_margin explore) = Returns out ->
        r ∈ out_tbl out -> below mm (price r) = false -> ucb r = exp_rev r)
  /\ outcome_map (fun out => (out_json out, out_tbl out, note out))
       (result (choose_price ARTIFACT enc price_grid model_pipe
                  (Some item) wd m ev min_margin true))
     = outcome_map (fun out => (out_json out, out_tbl out, note out))
         (result (choose_price ARTIFACT enc price_grid model_pipe
                    (Some item) wd m ev min_margin false)).
Proof.
  intros Hpre Hx. pose proof (dispersion_one_hot _ _ _ Hx) as Hs.
  split; [exact Hs|]. split.
  - intros explore out r Hret Hr Hfree.
    destruct (choose_price_returns_inv _ _ _ _ _ _ _ _ _ Hpre Hret) as [_ ->].
    cbn [decision out_tbl] in Hr. unfold sort_values in Hr.
    rewrite merge_sort_Permutation in Hr. unfold rows_of in Hr.
    apply list_elem_of_fmap in Hr as (p & -> & Hp).
    rewrite price_candidate in Hfree. unfold candidate. rewrite Hfree, Hs. simpl. lra.
  - destruct (scored_positive_dec mm g) as [Hpos | Hex].
    + rewrite !(choose_price_spec _ _ _ _ _ _ _ _ Hpre Hpos).
      unfold result, outcome_map, decision, pretty_of, best_price_of, best_idx_of,
        scores_of. simpl.
      rewrite (rows_of_no_dispersion item wd m ev mm g Hs). reflexivity.
    + rewrite !(choose_price_raises _ _ _ _ _ _ _ _ Hpre Hex). reflexivity.
Qed.



(** ** The dropdown items *)

#[local] Instance string_le_total : Total string_le.
Proof. intros a b. apply String.leb_total. Qed.

Lemma elem_of_usable_keys (item : string) :
  item ∈ (filter (fun kv => (2 <= length kv.2)%nat) (map_to_list price_grid)).*1
  <-> exists g, price_grid !! item = Some g /\ (2 <= length g)%nat.
Proof.
  rewrite list_elem_of_fmap. split.
  - intros ([k g] & -> & Hin). apply list_elem_of_filter in Hin as [Hlen Hin].
    apply elem_of_map_to_list in Hin. exists g. auto.
  - intros (g & Hg & Hlen). exists (item, g). split; [reflexivity|].
    apply list_elem_of_filter. split; [exact Hlen | apply elem_of_map_to_list; exact Hg].
Qed.

Lemma NoDup_usable_keys :
  NoDup (filter (fun kv => (2 <= length kv.2)%nat) (map_to_list price_grid)).*1.
Proof.
  pose proof (NoDup_fst_map_to_list price_grid) as Hnd.
  induction (map_to_list price_grid) as [|[k g] l IH]; [constructor|].
  rewrite fmap_cons in Hnd. apply NoDup_cons in Hnd as [Hk Hnd].
  rewrite filter_cons. destruct (decide _); [|apply IH; exact Hnd].
  rewrite fmap_cons. apply NoDup_cons. split; [|apply IH; exact Hnd].
  intros Hin. apply Hk. apply list_elem_of_fmap in Hin as (kv & Heq & Hin).
  apply list_elem_of_filter in Hin as [_ Hin].
  apply list_elem_of_fmap. exists kv. auto.
Qed.

Lemma Sorted_take {A : Type} (R : relation A) (n : nat) (l : list A) :
  Sorted R l -> Sorted R (take n l).
Proof.
  revert n. induction l as [|x l IH]; intros [|n] Hs; simpl; try constructor.
  - apply IH. inversion Hs; assumption.
  - inversion Hs as [|? ? _ Hhd]; subst.
    destruct l as [|y l]; destruct n; simpl; constructor.
    inversion Hhd; assumption.
Qed.

Lemma NoDup_take {A : Type} (n : nat) (l : list A) : NoDup l -> NoDup (take n l).
Proof.
  intros Hnd. rewrite <- (take_drop n l) in Hnd.
  apply NoDup_app in Hnd as [H _]. exact H.
Qed.

Lemma elem_of_ITEMS (item : string) :
  item ∈ ITEMS price_grid ->
  exists g, price_grid !! item = Some g /\ (2 <= length g)%nat.
Proof.
  unfold ITEMS. intros Hin. apply elem_of_take in Hin as (i & Hin & _).
  apply list_elem_of_lookup_2 in Hin. rewrite merge_sort_Permutation in Hin.
  apply elem_of_usable_keys. exact Hin.
Qed.

Lemma ITEMS_complete (item : string) (g : list R) :
  (size price_grid <= 1500)%nat ->
  price_grid !! item = Some g -> (2 <= length g)%nat ->
  item ∈ ITEMS price_grid.
Proof.
  intros Hsize Hg Hlen. unfold ITEMS. rewrite take_ge.
  - rewrite merge_sort_Permutation. apply elem_of_usable_keys. eauto.
  - rewrite merge_sort_Permutation, length_fmap.
    etransitivity; [apply length_filter|]. rewrite length_map_to_list. exact Hsize.
Qed.

(** X15. The dropdown list [ITEMS] holds at most 1500 keys, none twice,
    in sorted order, and each of them has a grid of two entries or more;
    when the artifact has at most 1500 keys, every key with such a grid
    is in the list. *)
Theorem ITEMS_usable_sorted_capped :
  (length (ITEMS price_grid) <= 1500)%nat
  /\ NoDup (ITEMS price_grid)
  /\ Sorted string_le (ITEMS price_grid)
  /\ (forall item, item ∈ ITEMS price_grid ->
        exists g, price_grid !! item = Some g /\ (2 <= length g)%nat)
  /\ ((size price_grid <= 1500)%nat ->
      forall item g, price_grid !! item = Some g -> (2 <= length g)%nat ->
        item ∈ ITEMS price_grid).
Proof.
  split; [unfold ITEMS; rewrite length_take; lia|]. split.
  { unfold ITEMS. apply NoDup_take. rewrite merge_sort_Permutation.
    apply NoDup_usable_keys. }
  split; [unfold ITEMS; apply Sorted_take, Sorted_merge_sort; apply _|].
  split; [apply elem_of_ITEMS|].
  intros Hsize item g. apply ITEMS_complete. exact Hsize.
Qed.

(** X16. A request for an item of the dropdown list (the empty key
    apart) is never answered with [Pick an item_id.] or with the
    no-usable-grid message: the only rejection left is a [min_margin]
    that is not numeric. *)
Theorem dropdown_item_passes_grid_check item wd m ev min_margin explore :
  item ∈ ITEMS price_grid ->
  item <> EmptyString ->
  forall msg,
    result (choose_price ARTIFACT enc price_grid model_pipe
              (Some item) wd m ev min_margin explore) = Returns (rejected msg) ->
    msg = "min_margin must be numeric."%string
    /\ parse_min_margin min_margin = None.
Proof.
  intros Hin Hitem msg Hret.
  destruct (elem_of_ITEMS item Hin) as (g & Hgrid & Hlen).
  destruct (parse_min_margin min_margin) as [mm|] eqn:Hmm.
  - assert (Hpre : preconditions item min_margin g mm) by (repeat split; assumption).
    destruct (choose_price_returns_inv _ _ _ _ _ _ _ _ _ Hpre Hret) as [_ Hout].
    discriminate Hout.
  - rewrite (unparsed_rejected _ _ _ _ _ _ _ Hitem Hgrid Hlen Hmm) in Hret.
    simpl in Hret. injection Hret as <-. auto.
Qed.

(** ** The arg-max under the exploration bonus *)

(** The first maximum is the only index with its two properties. *)
Lemma argmax_unique (l : list R) (k : nat) (v : R) :
  l !! k = Some v ->
  (forall j y, l !! j = Some y -> y <= v) ->
  (forall j y, (j < k)%nat -> l !! j = Some y -> y < v) ->
  argmax l = k.
Proof.
  intros Hk Hle Hlt.
  assert (Hne : l <> []) by (intros ->; discriminate).
  destruct (argmax_spec l Hne) as (v' & Hk' & Hle' & Hlt').
  destruct (Nat.lt_trichotomy (argmax l) k) as [Hlt1 | [Heq | Hgt]]; [|exact Heq|].
  - pose proof (Hlt _ _ Hlt1 Hk'). pose proof (Hle' _ _ Hk). lra.
  - pose proof (Hlt' _ _ Hgt Hk). pose proof (Hle _ _ Hk'). lra.
Qed.

Lemma score_of_cases item wd m ev mm explore p :
  (below mm p = true /\ score_of item wd m ev mm explore p = sentinel)
  \/ (below mm p = false
      /\ score_of item wd m ev mm explore p
         = p * quantity item wd m (Z.b2z ev) p
           + alpha_of explore * dispersion enc wd m (Z.b2z ev)).
Proof.
  unfold score_of, candidate. destruct (below mm p); [left | right]; auto.
Qed.

(** Scores with and without the bonus order the candidates alike. *)
Lemma score_order_explore item wd m ev mm p q :
  (below mm p = false -> 0 < p) -> (below mm q = false -> 0 < q) ->
  (score_of item wd m ev mm true p <= score_of item wd m ev mm true q
   <-> score_of item wd m ev mm false p <= score_of item wd m ev mm false q)
  /\ (score_of item wd m ev mm true p < score_of item wd m ev mm true q
      <-> score_of item wd m ev mm false p < score_of item wd m ev mm false q).
Proof.
  intros Hp Hq. pose proof sentinel_neg as Hneg.
  pose proof (dispersion_nonneg wd m (Z.b2z ev)) as Hs.
  assert (Hrev : forall x, (below mm x = false -> 0 < x) -> below mm x = false ->
            0 <= x * quantity item wd m (Z.b2z ev) x).
  { intros x Hx Hb. apply Rmult_le_pos; [specialize (Hx Hb); lra | apply quantity_nonneg]. }
  destruct (score_of_cases item wd m ev mm true p) as [[Bp Sp] | [Bp Sp]];
  destruct (score_of_cases item wd m ev mm false p) as [[Bp' Sp'] | [Bp' Sp']];
  destruct (score_of_cases item wd m ev mm true q) as [[Bq Sq] | [Bq Sq]];
  destruct (score_of_cases item wd m ev mm false q) as [[Bq' Sq'] | [Bq' Sq']];
  try congruence; rewrite Sp, Sp', Sq, Sq'; cbn [alpha_of];
  try pose proof (Hrev p Hp Bp); try pose proof (Hrev q Hq Bq);
  set (s := dispersion enc wd m (Z.b2z ev)) in *;
  set (rp := p * quantity item wd m (Z.b2z ev) p) in *;
  set (rq := q * quantity item wd m (Z.b2z ev) q) in *;
  split; split; intros; lra.
Qed.

Lemma best_idx_explore item wd m ev mm (g : list R) :
  g <> [] ->
  Forall (fun p => below mm p = false -> 0 < p) g ->
  best_idx_of item wd m ev mm false g = best_idx_of item wd m ev mm true g.
Proof.
  intros Hne Hpos. rewrite Forall_forall in Hpos.
  destruct (decision_argmax item wd m ev mm true g Hne)
    as (bp & Hbp & _ & _ & Hmax & Hfirst).
  assert (Hbp_in : bp ∈ g) by (eapply list_elem_of_lookup_2; exact Hbp).
  unfold best_idx_of at 1.
  apply (argmax_unique _ _ (score_of item wd m ev mm false bp)).
  - rewrite scores_of_lookup, Hbp. reflexivity.
  - intros j y Hj. rewrite scores_of_lookup in Hj.
    destruct (g !! j) as [p|] eqn:Hp; [|discriminate]. injection Hj as <-.
    apply (score_order_explore item wd m ev mm p bp);
      [apply Hpos; eapply list_elem_of_lookup_2; eauto | apply Hpos; exact Hbp_in |].
    eapply Hmax; eauto.
  - intros j y Hlt Hj. rewrite scores_of_lookup in Hj.
    destruct (g !! j) as [p|] eqn:Hp; [|discriminate]. injection Hj as <-.
    apply (score_order_explore item wd m ev mm p bp);
      [apply Hpos; eapply list_elem_of_lookup_2; eauto | apply Hpos; exact Hbp_in |].
    eapply Hfirst; eauto.
Qed.

(** X18. The explore flag never changes the choice, with a guardrail or
    without: when the three checks pass, both runs end alike (the same
    chosen index and price, or the same error), since the bonus is the
    same for every candidate that is not blocked and blocked candidates
    stay below all of them. *)
Theorem explore_flag_keeps_choice_under_guardrail item wd m ev min_margin g mm :
  preconditions item min_margin g mm ->
  outcome_map chosen
    (result (choose_price ARTIFACT enc price_grid model_pipe
               (Some item) wd m ev min_margin true))
  = outcome_map chosen
      (result (choose_price ARTIFACT enc price_grid model_pipe
                 (Some item) wd m ev min_margin false)).
Proof.
  intros Hpre. destruct (scored_positive_dec mm g) as [Hpos | Hex].
  - rewrite !(choose_price_spec _ _ _ _ _ _ _ _ Hpre Hpos).
    unfold result, chosen, decision, pretty_of. simpl. unfold best_price_of.
    rewrite (best_idx_explore item wd m ev mm g
               (preconditions_nonempty _ _ _ _ Hpre) Hpos).
    reflexivity.
  - rewrite !(choose_price_raises _ _ _ _ _ _ _ _ Hpre Hex). reflexivity.
Qed.


(** ** Locating the artifact *)

(** X17. A path set in [M5_ARTIFACT] is the only one tried: if it does
    not exist the start fails, even when a known place holds the
    artifact.  With no path set, the folder layout is preferred to the
    root layout, and the start fails when neither exists.  A path that
    is settled on always exists. *)
Theorem locate_artifact_rules getenv path_exists :
  (forall p, getenv = Some p -> p <> EmptyString ->
     locate_artifact getenv path_exists
     = if path_exists p then Loads p else FileNotFound)
  /\ (truthy getenv = false ->
      locate_artifact getenv path_exists
      = if path_exists "artifacts_m5/m5_price_artifacts.pkl"
        then Loads "artifacts_m5/m5_price_artifacts.pkl"
        else if path_exists "m5_price_artifacts.pkl"
             then Loads "m5_price_artifacts.pkl"
             else FileNotFound)
  /\ (forall p, locate_artifact getenv path_exists = Loads p ->
        path_exists p = true /\ p <> EmptyString).
Proof.
  assert (Hset : forall p, getenv = Some p -> p <> EmptyString ->
            locate_artifact getenv path_exists
            = if path_exists p then Loads p else FileNotFound).
  { intros p -> Hp. unfold locate_artifact.
    destruct p as [|c p]; [congruence|]. simpl.
    destruct (path_exists (String c p)); reflexivity. }
  assert (Hunset : truthy getenv = false ->
            locate_artifact getenv path_exists
            = if path_exists "artifacts_m5/m5_price_artifacts.pkl"
              then Loads "artifacts_m5/m5_price_artifacts.pkl"
              else if path_exists "m5_price_artifacts.pkl"
                   then Loads "m5_price_artifacts.pkl"
                   else FileNotFound).
  { intros Hf. unfold locate_artifact. rewrite Hf. unfold known_places. simpl List.find.
    destruct (path_exists "artifacts_m5/m5_price_artifacts.pkl") eqn:E1.
    { simpl. rewrite E1. reflexivity. }
    destruct (path_exists "m5_price_artifacts.pkl") eqn:E2.
    { simpl. rewrite E2. reflexivity. }
    destruct getenv as [[|c p]|]; [reflexivity | discriminate | reflexivity]. }
  split; [exact Hset|]. split; [exact Hunset|].
  intros p Hp. destruct (truthy getenv) eqn:Ht.
  - destruct getenv as [[|c q]|]; try discriminate.
    rewrite (Hset (String c q) eq_refl) in Hp by discriminate.
    destruct (path_exists (String c q)) eqn:E; [|discriminate].
    injection Hp as <-. split; [exact E | discriminate].
  - rewrite (Hunset eq_refl) in Hp.
    destruct (path_exists "artifacts_m5/m5_price_artifacts.pkl") eqn:E1.
    { injection Hp as <-. split; [exact E1 | discriminate]. }
    destruct (path_exists "m5_price_artifacts.pkl") eqn:E2; [|discriminate].
    injection Hp as <-. split; [exact E2 | discriminate].
Qed.

(** ** The engine with the range of [math.exp] *)

Lemma Eff_bind_ext {A B : Type} (m : Eff A) (f g : A -> Eff B) :
  (forall a, f a = g a) -> mbind f m = mbind g m.
Proof.
  intros Hfg. destruct m as [[a|e] t]; [|reflexivity].
  rewrite !Eff_bind_returns, Hfg. reflexivity.
Qed.

Lemma expected_revenue_ranged_agrees item wd m ev p :
  (0 < p -> exp (model_pipe (feature_row item wd m ev p)) <= DBL_MAX) ->
  expected_revenue_ranged model_pipe item wd m ev p
  = expected_revenue model_pipe item wd m ev p.
Proof.
  intros Hmu. unfold expected_revenue_ranged, expected_revenue.
  rewrite expected_qty_ranged_agrees by exact Hmu. reflexivity.
Qed.

Lemma score_grid_ranged_agrees item wd m ev mm alpha sigma ps :
  Forall (fun p => below mm p = false -> 0 < p ->
                   exp (model_pipe (feature_row item wd m ev p)) <= DBL_MAX) ps ->
  forall rows scores penalized,
  score_grid_ranged model_pipe item wd m ev mm alpha sigma ps rows scores penalized
  = score_grid model_pipe item wd m ev mm alpha sigma ps rows scores penalized.
Proof.
  induction 1 as [|p ps Hp _ IH]; intros rows scores penalized; simpl;
    [reflexivity|].
  destruct (below mm p) eqn:E; [apply IH|].
  specialize (Hp eq_refl).
  rewrite expected_revenue_ranged_agrees, expected_qty_ranged_agrees by exact Hp.
  apply Eff_bind_ext. intros er. apply Eff_bind_ext. intros qty. apply IH.
Qed.

Lemma score_grid_ranged_overflows item wd m ev mm alpha sigma ps :
  Forall (fun p => below mm p = false -> 0 < p) ps ->
  Exists (fun p => below mm p = false
                   /\ DBL_MAX < exp (model_pipe (feature_row item wd m ev p))) ps ->
  forall rows scores penalized,
  result (score_grid_ranged model_pipe item wd m ev mm alpha sigma ps
            rows scores penalized)
  = Raises (OverflowError "math range error").
Proof.
  induction 1 as [|p ps Hp _ IH]; intros Hex rows scores penalized.
  - inversion Hex.
  - simpl. destruct (below mm p) eqn:E.
    + apply IH. inversion Hex as [? ? [Hb _] | ? ? Htl]; subst; [|exact Htl].
      congruence.
    + specialize (Hp eq_refl).
      destruct (Rle_lt_dec (exp (model_pipe (feature_row item wd m ev p))) DBL_MAX)
        as [Hmu | Hmu].
      * rewrite expected_revenue_ranged_in_range by assumption.
        rewrite Eff_bind_returns.
        rewrite expected_qty_ranged_in_range by assumption.
        rewrite Eff_bind_returns.
        unfold result at 1 2. simpl fst. apply IH.
        inversion Hex as [? ? [_ Hover] | ? ? Htl]; subst; [|exact Htl].
        lra.
      * unfold expected_revenue_ranged.
        rewrite expected_qty_ranged_overflow by assumption. reflexivity.
Qed.

(** X20. With the range of [math.exp] kept, [choose_price] is the
    function of the real-number reading on every request whose scored
    prices get model answers inside that range: a grid price that is not
    blocked and is positive has [exp mu <= DBL_MAX].  Outcome and model
    calls are the same. *)
Theorem choose_price_ranged_agrees request wd m ev min_margin explore :
  (forall item mm p,
     request = Some item ->
     parse_min_margin min_margin = Some mm ->
     p ∈ default [] (price_grid !! item) ->
     below mm p = false -> 0 < p ->
     exp (model_pipe (feature_row item wd m (Z.b2z ev) p)) <= DBL_MAX) ->
  choose_price_ranged ARTIFACT enc price_grid model_pipe
    request wd m ev min_margin explore
  = choose_price ARTIFACT enc price_grid model_pipe
      request wd m ev min_margin explore.
Proof.
  intros Hrange. unfold choose_price_ranged, choose_price.
  destruct request as [[|c item]|]; [reflexivity | | reflexivity].
  destruct (bool_decide (default [] (price_grid !! String c item) = [])
            || (length (default [] (price_grid !! String c item)) <? 2)%nat);
    [reflexivity|].
  destruct (parse_min_margin min_margin) as [mm|] eqn:Hmm; [|reflexivity].
  rewrite score_grid_ranged_agrees; [reflexivity|].
  apply Forall_forall. intros p Hin Hb Hp.
  apply (Hrange (String c item) mm p eq_refl eq_refl Hin Hb Hp).
Qed.

(** X21. When the three checks pass and every scored price is
    positive, a scored price whose model answer is beyond the range of
    [math.exp] makes [choose_price] raise the OverflowError: no decision
    is returned. *)
Theorem choose_price_ranged_overflows item wd m ev min_margin explore g mm :
  preconditions item min_margin g mm ->
  Forall (fun p => below mm p = false -> 0 < p) g ->
  Exists (fun p => below mm p = false
                   /\ DBL_MAX < exp (model_pipe (feature_row item wd m (Z.b2z ev) p))) g ->
  result (choose_price_ranged ARTIFACT enc price_grid model_pipe
            (Some item) wd m ev min_margin explore)
  = Raises (OverflowError "math range error").
Proof.
  intros (Hitem & Hgrid & Hlen & Hmm) Hpos Hex.
  unfold choose_price_ranged. destruct item as [|c item]; [congruence|].
  rewrite Hgrid. simpl default.
  assert (Hne : g <> []) by (destruct g; simpl in Hlen; [lia | congruence]).
  rewrite bool_decide_eq_false_2 by exact Hne.
  replace (length g <? 2)%nat with false by (symmetry; apply Nat.ltb_ge; exact Hlen).
  simpl orb. cbv iota. rewrite Hmm.
  match goal with
  | |- context [score_grid_ranged ?a ?b ?c ?d ?e ?f ?h ?i ?j ?k ?l ?n] =>
      pose proof (score_grid_ranged_overflows b c d e f h i j Hpos Hex k l n) as Hr;
      destruct (score_grid_ranged a b c d e f h i j k l n) as [o t]
  end.
  simpl in Hr. subst o. reflexivity.
Qed.

End Properties.

(** * Part III: the mock artifact at work *)

Lemma mock_grid_001 : mock_grid !! "FOODS_1_001"%string = Some [2.00; 2.50; 3.00].
Proof. reflexivity. Qed.

Lemma mock_grid_002 : mock_grid !! "FOODS_1_002"%string = Some [2.00; 2.00].
Proof. reflexivity. Qed.

Lemma mock_grid_003 : mock_grid !! "FOODS_1_003"%string = Some [4.00].
Proof. reflexivity. Qed.

Lemma mock_qty_positive p : 0 < mock_qty p.
Proof. unfold mock_qty, Rleb. repeat (destruct (Rle_dec _ _)); lra. Qed.

(** The mock model answers [log(1 + qty)], so the engine reads [qty] back. *)
Lemma mock_quantity item wd m ev p :
  0 < p -> quantity mock_model item wd m ev p = mock_qty p.
Proof.
  intros Hp. unfold quantity, mock_model, feature_row. simpl log_price.
  rewrite (exp_ln p) by exact Hp.
  pose proof (mock_qty_positive p) as Hq.
  rewrite exp_ln by lra. unfold py_max. decide_Rltb.
Qed.


Lemma mock_qty_values : mock_qty 2.00 = 10 /\ mock_qty 2.50 = 8 /\ mock_qty 3.00 = 5.
Proof. unfold mock_qty, Rleb. repeat split; repeat (destruct (Rle_dec _ _)); lra. Qed.

Lemma mock_preconditions min_margin mm :
  parse_min_margin min_margin = Some mm ->
  preconditions mock_grid "FOODS_1_001" min_margin [2.00; 2.50; 3.00] mm.
Proof.
  intros Hmm. unfold preconditions.
  split; [discriminate | split; [exact mock_grid_001 | split; [simpl; lia | exact Hmm]]].
Qed.

Lemma mock_grid_positive : Forall (fun p => 0 < p) [2.00; 2.50; 3.00].
Proof. repeat constructor; lra. Qed.

Lemma parse_10 : parse_min_margin (Some " 10 "%string) = Some (Some (Finite 10)).
Proof.
  unfold parse_min_margin.
  change (strip <$> Some " 10 "%string) with (Some "10"%string).
  change (String.eqb "10" "" || String.eqb "10" " ") with false.
  cbv iota. replace (py_float "10") with (Some (Finite 10)); [reflexivity|].
  symmetry. float_literal.
Qed.



(** A guardrail of 10 on the mock grid blocks every candidate. *)
Lemma full_block_returns_first_witness :
  (preconditions mock_grid "FOODS_1_001" (Some " 10 "%string) [2.00; 2.50; 3.00]
     (Some (Finite 10))
   /\ Forall (fun p => p < 10) [2.00; 2.50; 3.00])
  /\ exists out pretty summary,
       choose_price mock_artifact mock_enc mock_grid mock_model
         (Some "FOODS_1_001"%string) "Friday" 11 false (Some " 10 "%string) true
       = (Returns out, [])
       /\ out_json out = Json pretty
       /\ human out = Some summary
       /\ Forall marked_blocked (out_tbl out)
       /\ price <$> out_tbl out ≡ₚ [2.00; 2.50; 3.00]
       /\ scores_ucb pretty = replicate (length [2.00; 2.50; 3.00]) sentinel
       /\ guardrail_applied summary = Some (Finite 10)
       /\ arm_index pretty = 0%nat
       /\ [2.00; 2.50; 3.00] !! 0%nat = Some (chosen_price pretty).
Proof.
  assert (H1 : preconditions mock_grid "FOODS_1_001" (Some " 10 "%string)
                 [2.00; 2.50; 3.00] (Some (Finite 10)))
    by (apply mock_preconditions, parse_10).
  assert (H2 : Forall (fun p => p < 10) [2.00; 2.50; 3.00])
    by (repeat constructor; lra).
  split; [split; assumption|].
  exact (full_block_returns_first mock_artifact mock_enc mock_grid mock_model
           "FOODS_1_001" "Friday" 11 false (Some " 10 "%string) true
           [2.00; 2.50; 3.00] 10 H1 H2).
Defined.

(** The grid of [FOODS_1_002] holds one price twice, and the request is
    decided, not rejected: the length of the grid is what is checked. *)
Lemma equal_prices_grid_is_decided :
  mock_grid !! "FOODS_1_002"%string = Some [2.00; 2.00]
  /\ (forall p q, p ∈ [2.00; 2.00] -> q ∈ [2.00; 2.00] -> p = q)
  /\ exists out pretty,
       result (choose_price mock_artifact mock_enc mock_grid mock_model
                 (Some "FOODS_1_002"%string) "Friday" 11 false None false)
       = Returns out
       /\ out_json out = Json pretty
       /\ chosen_price pretty = 2.00
       /\ note out = Recommended 2.00
       /\ out <> rejected "No usable price grid for FOODS_1_002.".
Proof.
  assert (Hsame : forall p, p ∈ [2.00; 2.00] -> p = 2.00).
  { intros p Hp. repeat (apply elem_of_cons in Hp as [->|Hp]); try reflexivity.
    apply elem_of_nil in Hp. contradiction. }
  split; [exact mock_grid_002|]. split.
  { intros p q Hp Hq. rewrite (Hsame p Hp), (Hsame q Hq). reflexivity. }
  assert (Hpre : preconditions mock_grid "FOODS_1_002" None [2.00; 2.00] None).
  { unfold preconditions.
    split; [discriminate | split; [exact mock_grid_002 | split; [simpl; lia | reflexivity]]]. }
  rewrite (choose_price_spec _ _ _ _ _ _ _ _ _ _ _ _ Hpre)
    by (repeat constructor; intros _; lra).
  destruct (decision_argmax mock_enc mock_model "FOODS_1_002" "Friday" 11 false None false
              [2.00; 2.00]) as (bp & Hbp & Hprice & _); [discriminate|].
  assert (Hbp2 : bp = 2.00) by (apply Hsame; eapply list_elem_of_lookup_2; exact Hbp).
  exists (decision mock_artifact mock_enc mock_model "FOODS_1_002" "Friday" 11 false
            None false [2.00; 2.00]),
    (pretty_of mock_artifact mock_enc mock_model "FOODS_1_002" "Friday" 11 false
       None false [2.00; 2.00]).
  cbn [result fst decision out_json note pretty_of chosen_price].
  rewrite Hprice, Hbp2.
  split; [reflexivity|]. split; [reflexivity|]. split; [reflexivity|].
  split; [reflexivity|]. discriminate.
Qed.

(** The grid of [FOODS_1_003] has one entry. *)
Lemma no_usable_grid_iff_short_witness :
  "FOODS_1_003"%string <> EmptyString
  /\ (result (choose_price mock_artifact mock_enc mock_grid mock_model
                (Some "FOODS_1_003"%string) "Friday" 11 false None true)
      = Returns (rejected ("No usable price grid for " +:+ "FOODS_1_003" +:+ "."))
      <-> (length (default [] (mock_grid !! "FOODS_1_003"%string)) < 2)%nat).
Proof.
  assert (H : "FOODS_1_003"%string <> EmptyString) by discriminate.
  split; [exact H|].
  exact (no_usable_grid_iff_short mock_artifact mock_enc mock_grid mock_model
           "FOODS_1_003" "Friday" 11 false None true H).
Defined.

Lemma unusable_grid_rejected_witness :
  ("FOODS_1_003"%string <> EmptyString
   /\ forall g, mock_grid !! "FOODS_1_003"%string = Some g -> (length g < 2)%nat)
  /\ choose_price mock_artifact mock_enc mock_grid mock_model
       (Some "FOODS_1_003"%string) "Friday" 11 false (Some "2.75"%string) true
     = (Returns {| out_json := Cleared; out_tbl := [];
                   note := Message ("No usable price grid for " +:+ "FOODS_1_003" +:+ ".");
                   human := None |}, []).
Proof.
  assert (H1 : "FOODS_1_003"%string <> EmptyString) by discriminate.
  assert (H2 : forall g, mock_grid !! "FOODS_1_003"%string = Some g -> (length g < 2)%nat).
  { intros g Hg. rewrite mock_grid_003 in Hg. injection Hg as <-. simpl. lia. }
  split; [split; assumption|].
  exact (unusable_grid_rejected mock_artifact mock_enc mock_grid mock_model
           "FOODS_1_003" "Friday" 11 false (Some "2.75"%string) true H1 H2).
Defined.

(** With an unusable grid the text of [min_margin] is never read: the
    request is answered with the no-usable-grid outcome. *)
Lemma unusable_grid_precedes_guardrail :
  strip "abc" <> EmptyString
  /\ py_float (strip "abc") = None
  /\ result (choose_price mock_artifact mock_enc mock_grid mock_model
               (Some "FOODS_1_003"%string) "Friday" 11 false (Some "abc"%string) true)
     = Returns (rejected "No usable price grid for FOODS_1_003.")
  /\ result (choose_price mock_artifact mock_enc mock_grid mock_model
               (Some "FOODS_1_003"%string) "Friday" 11 false (Some "abc"%string) true)
     <> Returns (rejected "min_margin must be numeric.").
Proof.
  split; [discriminate|]. split; [vm_compute; reflexivity|].
  assert (H : result (choose_price mock_artifact mock_enc mock_grid mock_model
                 (Some "FOODS_1_003"%string) "Friday" 11 false (Some "abc"%string) true)
              = Returns (rejected "No usable price grid for FOODS_1_003.")).
  { rewrite short_grid_rejected; [reflexivity | discriminate |].
    rewrite mock_grid_003. simpl. lia. }
  split; [exact H|]. rewrite H. discriminate.
Qed.

Lemma non_numeric_guardrail_rejected_witness :
  ("FOODS_1_001"%string <> EmptyString
   /\ mock_grid !! "FOODS_1_001"%string = Some [2.00; 2.50; 3.00]
   /\ (2 <= length [2.00; 2.50; 3.00]%R)%nat
   /\ strip " abc " <> EmptyString
   /\ py_float (strip " abc ") = None)
  /\ choose_price mock_artifact mock_enc mock_grid mock_model
       (Some "FOODS_1_001"%string) "Friday" 11 false (Some " abc "%string) true
     = (Returns {| out_json := Cleared; out_tbl := [];
                   note := Message "min_margin must be numeric."; human := None |}, [])
  /\ forall item',
       result (choose_price mock_artifact mock_enc mock_grid mock_model
                 (Some "FOODS_1_001"%string) "Friday" 11 false (Some " abc "%string) true)
       <> Returns (rejected ("No usable price grid for " +:+ item' +:+ ".")).
Proof.
  assert (H1 : "FOODS_1_001"%string <> EmptyString) by discriminate.
  assert (H3 : (2 <= length [2.00; 2.50; 3.00]%R)%nat) by (simpl; lia).
  assert (H4 : strip " abc " <> EmptyString) by discriminate.
  assert (H5 : py_float (strip " abc ") = None) by (vm_compute; reflexivity).
  split; [repeat split; assumption|].
  exact (non_numeric_guardrail_rejected mock_artifact mock_enc mock_grid mock_model
           "FOODS_1_001" "Friday" 11 false " abc " true [2.00; 2.50; 3.00]
           H1 mock_grid_001 H3 H4 H5).
Defined.


(** The mock model at 2.50 answers [log 9]: well inside the range. *)
Lemma mock_model_in_range item wd m ev p :
  0 < p -> exp (mock_model (feature_row item wd m ev p)) <= DBL_MAX.
Proof.
  intros Hp. unfold mock_model, feature_row. simpl log_price.
  rewrite (exp_ln p) by exact Hp.
  pose proof (mock_qty_positive p) as Hq. rewrite exp_ln by lra.
  apply small_le_DBL_MAX.
  unfold mock_qty, Rleb. repeat (destruct (Rle_dec _ _)); lra.
Qed.

Lemma expected_qty_floor_in_range_witness :
  0 < 2.50
  /\ expected_qty_ranged mock_model "FOODS_1_001" "Friday" 11 0 2.50
     = (Returns (Rmax 0 (exp (mock_model (feature_row "FOODS_1_001" "Friday" 11 0 2.50)) - 1)),
        [feature_row "FOODS_1_001" "Friday" 11 0 2.50])
  /\ 0 <= Rmax 0 (exp (mock_model (feature_row "FOODS_1_001" "Friday" 11 0 2.50)) - 1).
Proof.
  assert (H : 0 < 2.50) by lra.
  split; [exact H|].
  destruct (proj1 (expected_qty_floor_in_range mock_model
                     "FOODS_1_001" "Friday" 11 0 2.50 H)
              (mock_model_in_range "FOODS_1_001" "Friday" 11 0 2.50 H))
    as (Hqty & _ & Hpos).
  split; [exact Hqty | exact Hpos].
Defined.

(** C8 as the specification has it fails on a model that answers 1024
    for the price 2.50: [math.exp(1024)] is beyond the doubles, so
    [expected_qty] raises after its call of the model and returns no
    quantity. *)
Lemma expected_qty_overflows :
  0 < 2.50
  /\ expected_qty_ranged mock_model_huge "FOODS_1_001" "Friday" 11 0 2.50
     = (Raises (OverflowError "math range error"),
        [feature_row "FOODS_1_001" "Friday" 11 0 2.50])
  /\ ~ (exists q,
          0 <= q
          /\ result (expected_qty_ranged mock_model_huge "FOODS_1_001" "Friday" 11 0 2.50)
             = Returns q).
Proof.
  assert (H : 0 < 2.50) by lra.
  assert (Hraise :
    expected_qty_ranged mock_model_huge "FOODS_1_001" "Friday" 11 0 2.50
    = (Raises (OverflowError "math range error"),
       [feature_row "FOODS_1_001" "Friday" 11 0 2.50])).
  { apply expected_qty_ranged_overflow; [exact H|].
    apply exp_beyond_DBL_MAX. unfold mock_model_huge. lra. }
  split; [exact H|]. split; [exact Hraise|].
  intros (q & _ & Hq). rewrite Hraise in Hq. discriminate Hq.
Qed.



(** ** The further properties on the mock artifact *)

Lemma parse_text (text : string) (mm : option pyfloat) :
  (String.eqb (strip text) "" || String.eqb (strip text) " ") = false ->
  py_float (strip text) = mm ->
  parse_min_margin (Some text) = Some <$> mm.
Proof.
  intros Hne Hf. unfold parse_min_margin.
  change (strip <$> Some text) with (Some (strip text)). cbv beta iota zeta.
  rewrite Hne, Hf. reflexivity.
Qed.

Lemma parse_nan : parse_min_margin (Some "nan"%string) = Some (Some NaN).
Proof. apply (parse_text "nan" (Some NaN)); [reflexivity | float_literal]. Qed.

Lemma parse_inf : parse_min_margin (Some " inf"%string) = Some (Some PosInf).
Proof. apply (parse_text " inf" (Some PosInf)); [reflexivity|]. float_literal. Qed.




Lemma mock_returns min_margin mm explore :
  parse_min_margin min_margin = Some mm ->
  exists out,
    result (choose_price mock_artifact mock_enc mock_grid mock_model
              (Some "FOODS_1_001"%string) "Friday" 11 false min_margin explore)
    = Returns out.
Proof.
  intros Hmm. eapply positive_grid_returns;
    [apply mock_preconditions; exact Hmm | exact mock_grid_positive].
Qed.

(** The revenue of the mock model at 2.50 is 2.50 times 8. *)
Lemma expected_revenue_in_range_witness :
  0 < 2.50
  /\ result (expected_revenue_ranged mock_model "FOODS_1_001" "Friday" 11 0 2.50)
     = Returns (2.50 * 8).
Proof.
  assert (H : 0 < 2.50) by lra. split; [exact H|].
  destruct (proj1 (expected_revenue_in_range mock_model
                     "FOODS_1_001" "Friday" 11 0 2.50 H)
              (mock_model_in_range "FOODS_1_001" "Friday" 11 0 2.50 H))
    as (Hrev & _ & _).
  rewrite Hrev.
  change (mkRow (ln 2.50) "Friday" 11 0 "FOODS_1_001")
    with (feature_row "FOODS_1_001" "Friday" 11 0 2.50).
  rewrite <- (quantity_Rmax mock_model).
  rewrite mock_quantity by exact H.
  destruct mock_qty_values as (_ & V & _). rewrite V. reflexivity.
Defined.

(** A request without an item returns the first rejection. *)
Lemma returned_outcomes_witness :
  result (choose_price mock_artifact mock_enc mock_grid mock_model
            None "Friday" 11 false None false)
  = Returns (rejected "Pick an item_id.")
  /\ ((exists msg,
         choose_price mock_artifact mock_enc mock_grid mock_model
           None "Friday" 11 false None false
         = (Returns {| out_json := Cleared; out_tbl := []; note := Message msg;
                       human := None |}, [])
         /\ ((msg = "Pick an item_id."%string
              /\ (@None string = None \/ @None string = Some EmptyString))
             \/ (exists item,
                   @None string = Some item /\ item <> EmptyString
                   /\ (length (default [] (mock_grid !! item)) < 2)%nat
                   /\ msg = ("No usable price grid for " +:+ item +:+ "."))
             \/ (exists item g,
                   @None string = Some item /\ item <> EmptyString
                   /\ mock_grid !! item = Some g /\ (2 <= length g)%nat
                   /\ parse_min_margin None = None
                   /\ msg = "min_margin must be numeric."%string)))
      \/ (exists item g mm pretty summary,
            @None string = Some item
            /\ preconditions mock_grid item None g mm
            /\ out_json (rejected "Pick an item_id.") = Json pretty
            /\ human (rejected "Pick an item_id.") = Some summary
            /\ note (rejected "Pick an item_id.") = Recommended (chosen_price pretty)
            /\ sum_price summary = chosen_price pretty
            /\ item_id pretty = item
            /\ grid pretty = g)).
Proof.
  assert (H : result (choose_price mock_artifact mock_enc mock_grid mock_model
                        None "Friday" 11 false None false)
              = Returns (rejected "Pick an item_id.")) by reflexivity.
  split; [exact H|].
  exact (returned_outcomes mock_artifact mock_enc mock_grid mock_model
           None "Friday" 11 false None false (rejected "Pick an item_id.") H).
Defined.

Lemma nonpositive_price_raises_witness :
  0.00 <= 0
  /\ expected_qty mock_model "SAMPLE_FREE" "Friday" 11 0 0.00
     = (Raises (ValueError "math domain error"), [])
  /\ expected_revenue mock_model "SAMPLE_FREE" "Friday" 11 0 0.00
     = (Raises (ValueError "math domain error"), []).
Proof.
  assert (H : 0.00 <= 0) by lra. split; [exact H|].
  exact (nonpositive_price_raises mock_model "SAMPLE_FREE" "Friday" 11 0 0.00 H).
Defined.



Lemma table_sorted_by_price_witness :
  preconditions mock_grid "FOODS_1_001" None [2.00; 2.50; 3.00] None
  /\ exists out,
       result (choose_price mock_artifact mock_enc mock_grid mock_model
                 (Some "FOODS_1_001"%string) "Friday" 11 false None true) = Returns out
       /\ StronglySorted Rle (price <$> out_tbl out)
       /\ price <$> out_tbl out ≡ₚ [2.00; 2.50; 3.00].
Proof.
  assert (H : preconditions mock_grid "FOODS_1_001" None [2.00; 2.50; 3.00] None)
    by (apply mock_preconditions; reflexivity).
  split; [exact H|].
  destruct (mock_returns None None true eq_refl) as [out Hout].
  exists out. split; [exact Hout|].
  destruct (table_sorted_by_price mock_artifact mock_enc mock_grid mock_model
              "FOODS_1_001" "Friday" 11 false None true [2.00; 2.50; 3.00] None H out Hout)
    as (Hs & Hp & _).
  split; assumption.
Defined.

Lemma scored_rows_consistent_witness :
  preconditions mock_grid "FOODS_1_001" (Some "2.75"%string) [2.00; 2.50; 3.00]
    (Some (Finite 2.75))
  /\ exists out,
       result (choose_price mock_artifact mock_enc mock_grid mock_model
                 (Some "FOODS_1_001"%string) "Friday" 11 false (Some "2.75"%string) true)
       = Returns out
       /\ forall r, r ∈ out_tbl out -> below (Some (Finite 2.75)) (price r) = false ->
            exp_rev r = price r * exp_qty r /\ 0 <= exp_rev r <= ucb r.
Proof.
  assert (H : preconditions mock_grid "FOODS_1_001" (Some "2.75"%string)
                [2.00; 2.50; 3.00] (Some (Finite 2.75)))
    by (apply mock_preconditions, parse_2_75).
  split; [exact H|].
  destruct (mock_returns (Some "2.75"%string) _ true parse_2_75) as [out Hout].
  exists out. split; [exact Hout|]. intros r Hr Hfree.
  destruct (scored_rows_consistent mock_artifact mock_enc mock_grid mock_model
              "FOODS_1_001" "Friday" 11 false (Some "2.75"%string) true
              [2.00; 2.50; 3.00] (Some (Finite 2.75)) H out Hout r Hr Hfree)
    as (_ & _ & _ & Hrev & _ & Hle).
  split; assumption.
Defined.

Lemma summary_quotes_chosen_row_witness :
  preconditions mock_grid "FOODS_1_002" None [2.00; 2.00] None
  /\ forall out,
       result (choose_price mock_artifact mock_enc mock_grid mock_model
                 (Some "FOODS_1_002"%string) "Friday" 11 false None true) = Returns out ->
       exists pretty summary,
         out_json out = Json pretty
         /\ human out = Some summary
         /\ note out = Recommended (chosen_price pretty)
         /\ sum_price summary = chosen_price pretty.
Proof.
  assert (H : preconditions mock_grid "FOODS_1_002" None [2.00; 2.00] None).
  { unfold preconditions.
    split; [discriminate | split; [exact mock_grid_002 | split; [simpl; lia | reflexivity]]]. }
  split; [exact H|]. intros out Hout.
  destruct (summary_quotes_chosen_row mock_artifact mock_enc mock_grid mock_model
              "FOODS_1_002" "Friday" 11 false None true [2.00; 2.00] None H out Hout)
    as (pretty & summary & rows & pen & row & H1 & H2 & H3 & _ & _ & _ & _ & H4 & _).
  exists pretty, summary. auto.
Defined.

Lemma summary_flags_witness :
  preconditions mock_grid "FOODS_1_001" (Some "2.75"%string) [2.00; 2.50; 3.00]
    (Some (Finite 2.75))
  /\ exists out summary,
       result (choose_price mock_artifact mock_enc mock_grid mock_model
                 (Some "FOODS_1_001"%string) "Friday" 11 false (Some "2.75"%string) true)
       = Returns out
       /\ human out = Some summary
       /\ exploration_enabled summary = true
       /\ guardrail_applied summary = Some (Finite 2.75).
Proof.
  assert (H : preconditions mock_grid "FOODS_1_001" (Some "2.75"%string)
                [2.00; 2.50; 3.00] (Some (Finite 2.75)))
    by (apply mock_preconditions, parse_2_75).
  split; [exact H|].
  destruct (mock_returns (Some "2.75"%string) _ true parse_2_75) as [out Hout].
  destruct (summary_flags mock_artifact mock_enc mock_grid mock_model
              "FOODS_1_001" "Friday" 11 false (Some "2.75"%string) true
              [2.00; 2.50; 3.00] (Some (Finite 2.75)) H out Hout)
    as (summary & Hs & He & Hg).
  exists out, summary. split; [exact Hout|]. split; [exact Hs|]. split; [exact He|].
  apply Hg. split; [reflexivity|]. exists 2.00.
  split; [apply list_elem_of_here | apply Rltb_true; lra].
Defined.

Lemma blank_min_margin_is_no_guardrail_witness :
  strip "   " = EmptyString
  /\ choose_price mock_artifact mock_enc mock_grid mock_model
       (Some "FOODS_1_001"%string) "Friday" 11 false (Some "   "%string) true
     = choose_price mock_artifact mock_enc mock_grid mock_model
         (Some "FOODS_1_001"%string) "Friday" 11 false None true.
Proof.
  assert (H : strip "   " = EmptyString) by reflexivity.
  split; [exact H|].
  exact (blank_min_margin_is_no_guardrail mock_artifact mock_enc mock_grid mock_model
           (Some "FOODS_1_001"%string) "Friday" 11 false "   " true H).
Defined.

Lemma unordered_guardrail_is_no_guardrail_witness :
  parse_min_margin (Some "nan"%string) = Some (Some NaN)
  /\ choose_price mock_artifact mock_enc mock_grid mock_model
       (Some "FOODS_1_001"%string) "Friday" 11 false (Some "nan"%string) true
     = choose_price mock_artifact mock_enc mock_grid mock_model
         (Some "FOODS_1_001"%string) "Friday" 11 false None true.
Proof.
  split; [exact parse_nan|].
  exact (unordered_guardrail_is_no_guardrail mock_artifact mock_enc mock_grid mock_model
           (Some "FOODS_1_001"%string) "Friday" 11 false (Some "nan"%string) true
           (or_introl parse_nan)).
Defined.

Lemma infinite_guardrail_blocks_all_witness :
  preconditions mock_grid "FOODS_1_001" (Some " inf"%string) [2.00; 2.50; 3.00]
    (Some PosInf)
  /\ exists out pretty,
       choose_price mock_artifact mock_enc mock_grid mock_model
         (Some "FOODS_1_001"%string) "Friday" 11 false (Some " inf"%string) true
       = (Returns out, [])
       /\ out_json out = Json pretty
       /\ arm_index pretty = 0%nat
       /\ chosen_price pretty = 2.00.
Proof.
  assert (H : preconditions mock_grid "FOODS_1_001" (Some " inf"%string)
                [2.00; 2.50; 3.00] (Some PosInf))
    by (apply mock_preconditions, parse_inf).
  split; [exact H|].
  destruct (infinite_guardrail_blocks_all mock_artifact mock_enc mock_grid mock_model
              "FOODS_1_001" "Friday" 11 false (Some " inf"%string) true
              [2.00; 2.50; 3.00] H)
    as (out & pretty & summary & H1 & H2 & _ & _ & _ & _ & _ & H3 & H4).
  exists out, pretty. split; [exact H1|]. split; [exact H2|]. split; [exact H3|].
  simpl in H4. congruence.
Defined.

Lemma one_hot_context_no_bonus_witness :
  (preconditions mock_grid "FOODS_1_001" None [2.00; 2.50; 3.00] None
   /\ Forall (fun x => x = 0 \/ x = 1) (mock_enc "Friday" 11 (Z.b2z false)))
  /\ dispersion mock_enc "Friday" 11 (Z.b2z false) = 0.
Proof.
  assert (H : preconditions mock_grid "FOODS_1_001" None [2.00; 2.50; 3.00] None)
    by (apply mock_preconditions; reflexivity).
  assert (Hx : Forall (fun x => x = 0 \/ x = 1) (mock_enc "Friday" 11 (Z.b2z false)))
    by (unfold mock_enc; repeat constructor; auto).
  split; [split; assumption|].
  exact (proj1 (one_hot_context_no_bonus mock_artifact mock_enc mock_grid mock_model
                  "FOODS_1_001" "Friday" 11 false None [2.00; 2.50; 3.00] None H Hx)).
Defined.


Lemma mock_dropdown_item : "FOODS_1_001"%string ∈ ITEMS mock_grid.
Proof.
  apply (ITEMS_complete mock_grid "FOODS_1_001" [2.00; 2.50; 3.00]).
  - replace (size mock_grid) with 3%nat by reflexivity. lia.
  - exact mock_grid_001.
  - simpl. lia.
Qed.

Lemma dropdown_item_passes_grid_check_witness :
  ("FOODS_1_001"%string ∈ ITEMS mock_grid /\ "FOODS_1_001"%string <> EmptyString)
  /\ forall msg,
       result (choose_price mock_artifact mock_enc mock_grid mock_model
                 (Some "FOODS_1_001"%string) "Friday" 11 false (Some "abc"%string) true)
       = Returns (rejected msg) ->
       msg = "min_margin must be numeric."%string.
Proof.
  assert (H : "FOODS_1_001"%string <> EmptyString) by discriminate.
  split; [split; [exact mock_dropdown_item | exact H]|].
  intros msg Hret.
  exact (proj1 (dropdown_item_passes_grid_check mock_artifact mock_enc mock_grid mock_model
                  "FOODS_1_001" "Friday" 11 false (Some "abc"%string) true
                  mock_dropdown_item H msg Hret)).
Defined.

Lemma explore_flag_keeps_choice_under_guardrail_witness :
  preconditions mock_grid "FOODS_1_001" (Some "2.75"%string) [2.00; 2.50; 3.00]
    (Some (Finite 2.75))
  /\ outcome_map chosen
       (result (choose_price mock_artifact mock_enc mock_grid mock_model
                  (Some "FOODS_1_001"%string) "Friday" 11 false (Some "2.75"%string) true))
     = outcome_map chosen
         (result (choose_price mock_artifact mock_enc mock_grid mock_model
                    (Some "FOODS_1_001"%string) "Friday" 11 false (Some "2.75"%string)
                    false)).
Proof.
  assert (H : preconditions mock_grid "FOODS_1_001" (Some "2.75"%string)
                [2.00; 2.50; 3.00] (Some (Finite 2.75)))
    by (apply mock_preconditions, parse_2_75).
  split; [exact H|].
  exact (explore_flag_keeps_choice_under_guardrail mock_artifact mock_enc mock_grid
           mock_model "FOODS_1_001" "Friday" 11 false (Some "2.75"%string)
           [2.00; 2.50; 3.00] (Some (Finite 2.75)) H).
Defined.


(** On the mock model the ranged engine is the engine. *)
Lemma choose_price_ranged_agrees_witness :
  (forall item mm p,
     Some "FOODS_1_001"%string = Some item ->
     parse_min_margin (Some "2.75"%string) = Some mm ->
     p ∈ default [] (mock_grid !! item) ->
     below mm p = false -> 0 < p ->
     exp (mock_model (feature_row item "Friday" 11 (Z.b2z false) p)) <= DBL_MAX)
  /\ choose_price_ranged mock_artifact mock_enc mock_grid mock_model
       (Some "FOODS_1_001"%string) "Friday" 11 false (Some "2.75"%string) true
     = choose_price mock_artifact mock_enc mock_grid mock_model
         (Some "FOODS_1_001"%string) "Friday" 11 false (Some "2.75"%string) true.
Proof.
  assert (H : forall item mm p,
            Some "FOODS_1_001"%string = Some item ->
            parse_min_margin (Some "2.75"%string) = Some mm ->
            p ∈ default [] (mock_grid !! item) ->
            below mm p = false -> 0 < p ->
            exp (mock_model (feature_row item "Friday" 11 (Z.b2z false) p)) <= DBL_MAX)
    by (intros item mm p _ _ _ _ Hp; apply mock_model_in_range; exact Hp).
  split; [exact H|].
  exact (choose_price_ranged_agrees mock_artifact mock_enc mock_grid mock_model
           (Some "FOODS_1_001"%string) "Friday" 11 false (Some "2.75"%string) true H).
Defined.

(** A model that answers 1024 everywhere: the request ends in the
    OverflowError at the first grid price. *)
Lemma choose_price_ranged_overflows_witness :
  (preconditions mock_grid "FOODS_1_001" None [2.00; 2.50; 3.00] None
   /\ Forall (fun p => below None p = false -> 0 < p) [2.00; 2.50; 3.00]
   /\ Exists (fun p => below None p = false
                       /\ DBL_MAX < exp (mock_model_huge
                                           (feature_row "FOODS_1_001" "Friday" 11
                                              (Z.b2z false) p)))
        [2.00; 2.50; 3.00])
  /\ result (choose_price_ranged mock_artifact mock_enc mock_grid mock_model_huge
               (Some "FOODS_1_001"%string) "Friday" 11 false None false)
     = Raises (OverflowError "math range error").
Proof.
  assert (H1 : preconditions mock_grid "FOODS_1_001" None [2.00; 2.50; 3.00] None)
    by (apply mock_preconditions; reflexivity).
  assert (H2 : Forall (fun p => below None p = false -> 0 < p) [2.00; 2.50; 3.00])
    by (repeat constructor; lra).
  assert (H3 : Exists (fun p => below None p = false
                         /\ DBL_MAX < exp (mock_model_huge
                                             (feature_row "FOODS_1_001" "Friday" 11
                                                (Z.b2z false) p)))
                 [2.00; 2.50; 3.00]).
  { constructor. split; [reflexivity|].
    apply exp_beyond_DBL_MAX. unfold mock_model_huge. lra. }
  split; [split; [exact H1 | split; [exact H2 | exact H3]]|].
  exact (choose_price_ranged_overflows mock_artifact mock_enc mock_grid mock_model_huge
           "FOODS_1_001" "Friday" 11 false None false [2.00; 2.50; 3.00] None H1 H2 H3).
Defined.
